(** * Verification of the statistics engine of gogrowatt ([internal/stats])

    The development embeds [src/internal/stats/stats.go] in Rocq.

    - [float64] values are IEEE 754 binary64 numbers, modelled by the
      [spec_float] type of the core library at precision 53 and maximal
      exponent 1024, with round-to-nearest-even operations (module
      [F64]).  Fused multiply-add, which a Go compiler may emit on some
      architectures, is not modelled: every operation rounds on its own.
    - [int] values are 64-bit two's complement integers carried by [Z]
      (module [GoInt]).
    - a slice is a [list]; the fixed array [[24]*T] is a list of
      [option T] read with stdpp's lookup, an absent index standing for
      a [nil] pointer.
    - a method with a pointer receiver returns the receiver after the
      call; the aggregators allocate every object they write to and
      only read their arguments, so no two names share an object.
    - [sort.Float64s] belongs to the Go library (1.19 and later): on
      slices of at most 12 elements it is the insertion sort written
      here; on longer slices it is the library's pattern-defeating
      quicksort, which is not stable and is a parameter of the
      development (class [Library]), known by its contract only. *)

From Stdlib Require Import ZArith List Bool Lia Sorting.Sorted Sorting.Permutation.
From Stdlib Require Import Floats.SpecFloat.
From stdpp Require Import base option list gmap strings.

Local Open Scope Z_scope.

(** ** 64-bit integers *)

Module GoInt.

Definition max_int : Z := 2 ^ 63 - 1.
Definition min_int : Z := - 2 ^ 63.

(** Two's complement wrap-around of an arbitrary integer. *)
Definition wrap (z : Z) : Z := (z + 2 ^ 63) mod 2 ^ 64 - 2 ^ 63.

Definition add (a b : Z) : Z := wrap (a + b).
Definition sub (a b : Z) : Z := wrap (a - b).

(** [len(s)] of a slice. *)
Definition len {A} (l : list A) : Z := Z.of_nat (length l).

(** A list is a slice only when its length is an [int]. *)
Definition is_slice {A} (l : list A) : Prop := len l <= max_int.

End GoInt.

(** ** binary64 floating point numbers *)

Module F64.

Definition prec : Z := 53.
Definition emax : Z := 1024.

Definition float64 : Type := spec_float.

Definition add : float64 -> float64 -> float64 := SFadd prec emax.
Definition sub : float64 -> float64 -> float64 := SFsub prec emax.
Definition mul : float64 -> float64 -> float64 := SFmul prec emax.
Definition div : float64 -> float64 -> float64 := SFdiv prec emax.
Definition sqrt : float64 -> float64 := SFsqrt prec emax.
Definition opp : float64 -> float64 := SFopp.

(** [x < y], [x > y] and [x == y] of Go. *)
Definition ltb (x y : float64) : bool := SFltb x y.
Definition gtb (x y : float64) : bool := ltb y x.
Definition eqb (x y : float64) : bool := SFeqb x y.

(** [float64(n)] for an integer [n]. *)
Definition of_int (n : Z) : float64 := binary_normalize prec emax n 0 false.

Definition zero : float64 := S754_zero false.
Definition pinf : float64 := S754_infinity false.

(** [math.MaxFloat64]. *)
Definition MaxFloat64 : float64 := Eval vm_compute in SFmax_float prec emax.

Definition is_nan (x : float64) : bool :=
  match x with S754_nan => true | _ => false end.

(** Ordinary numbers: neither NaN nor an infinity, with a mantissa and
    an exponent in the range of the format. *)
Definition finite (x : float64) : bool :=
  match x with
  | S754_zero _ => true
  | S754_finite _ m e => bounded prec emax m e
  | _ => false
  end.

End F64.

Import F64.

#[global] Instance float64_inhabited : Inhabited float64 := populate zero.

(** ** Slices of floats *)

(** [var s float64; for _, v := range l { s += v }]. *)
Definition fsum (l : list float64) : float64 := fold_left add l zero.

(** The comparison [sort.Float64s] sorts with: [x < y], NaN first. *)
Definition less (x y : float64) : bool :=
  ltb x y || (is_nan x && negb (is_nan y)).

(** [insertionSort] of the Go library, the sort it runs on slices of at
    most 12 elements: every element in turn moves down past the
    elements that are above it for [less]. *)
Fixpoint insert (x : float64) (l : list float64) : list float64 :=
  match l with
  | [] => [x]
  | y :: l' => if less x y then x :: y :: l' else y :: insert x l'
  end.

Definition insertionSort (l : list float64) : list float64 :=
  fold_left (fun acc x => insert x acc) l [].

(** The rest of the Go library that the program reaches: the sort of
    the slices of more than 12 elements, a quicksort that need not keep
    the order of elements that [less] does not tell apart (such as 0
    and -0).  The development holds for every such function; what it
    assumes of it is said where it is needed ([sorts], below). *)
Class Library : Type := {
  pdqsort : list float64 -> list float64
}.

(** [sort.Float64s(x)]: the contents of [x] after the call. *)
Definition Float64s `{Library} (x : list float64) : list float64 :=
  if GoInt.len x <=? 12 then insertionSort x else pdqsort x.

(** ** [internal/stats]: the data model *)

(** [HourlyStats]: statistics for a single hour. *)
Module HourlyStats.
Record t : Type := Build {
  Hour : Z;
  Samples : Z;
  Min : float64;
  Max : float64;
  Sum : float64;
  Mean : float64;
  StdDev : float64;
  Values : list float64
}.
End HourlyStats.

(** [DailyStats]: [Hours] is the array [[24]*HourlyStats]. *)
Module DailyStats.
Record t : Type := Build {
  Date : string;
  Hours : list (option HourlyStats.t)
}.
End DailyStats.

(** [AggregatedHourStats]: one hour across several days. *)
Module AggregatedHourStats.
Record t : Type := Build {
  Hour : Z;
  SampleDays : Z;
  Min : float64;
  Max : float64;
  Average : float64;
  Median : float64;
  StdDev : float64;
  Values : list float64
}.
End AggregatedHourStats.

(** [MultiDayStats]: [ByHour] is the array [[24]*AggregatedHourStats]. *)
Module MultiDayStats.
Record t : Type := Build {
  StartDate : string;
  EndDate : string;
  DaysAnalyzed : Z;
  ByHour : list (option AggregatedHourStats.t);
  TotalProduction : float64;
  DailyAverage : float64;
  PeakHour : Z;
  PeakPowerAvg : float64
}.
End MultiDayStats.

(** [HourlyRow]: one row of the hourly output. *)
Module HourlyRow.
Record t : Type := Build {
  Date : string;
  Hour : Z;
  Min : float64;
  Max : float64;
  Avg : float64;
  Samples : Z
}.
End HourlyRow.

(** [growatt.ParsedPowerData]; the type of [time.Time] values is left
    open, the aggregator only formats it. *)
Module ParsedPowerData.
Record t (GoTime : Type) : Type := Build {
  Date : GoTime;
  Time : string;
  Power : float64;
  Hour : Z;
  Minute : Z
}.
Arguments Build {GoTime}.
Arguments Date {GoTime}.
Arguments Time {GoTime}.
Arguments Power {GoTime}.
Arguments Hour {GoTime}.
Arguments Minute {GoTime}.
End ParsedPowerData.

(** Element [i] of an array of 24 pointers: [None] is [nil]. *)
Definition slot {A} (arr : list (option A)) (i : nat) : option A :=
  mjoin (arr !! i).

(** [for i := 0; i < 24; i++ { body }] over a state [S]. *)
Definition for_hours {S} (body : nat -> S -> S) (s : S) : S :=
  fold_left (fun s i => body i s) (seq 0 24) s.

(** ** [internal/stats]: the operations *)

Definition NewHourlyStats (hour : Z) : HourlyStats.t :=
  {| HourlyStats.Hour := hour;
     HourlyStats.Samples := 0;
     HourlyStats.Min := MaxFloat64;
     HourlyStats.Max := opp MaxFloat64;
     HourlyStats.Sum := zero;
     HourlyStats.Mean := zero;
     HourlyStats.StdDev := zero;
     HourlyStats.Values := [] |}.

(** [(h *HourlyStats) AddValue(power)]: the receiver after the call. *)
Definition AddValue (h : HourlyStats.t) (power : float64) : HourlyStats.t :=
  {| HourlyStats.Hour := HourlyStats.Hour h;
     HourlyStats.Samples := GoInt.add (HourlyStats.Samples h) 1;
     HourlyStats.Min :=
       if ltb power (HourlyStats.Min h) then power else HourlyStats.Min h;
     HourlyStats.Max :=
       if gtb power (HourlyStats.Max h) then power else HourlyStats.Max h;
     HourlyStats.Sum := add (HourlyStats.Sum h) power;
     HourlyStats.Mean := HourlyStats.Mean h;
     HourlyStats.StdDev := HourlyStats.StdDev h;
     HourlyStats.Values := HourlyStats.Values h ++ [power] |}.

Definition CalculateStdDev (values : list float64) (mean : float64) : float64 :=
  if GoInt.len values <? 2 then zero
  else
    let sumSquares :=
      fold_left (fun sumSquares v =>
                   let diff := sub v mean in
                   add sumSquares (mul diff diff)) values zero in
    let variance := div sumSquares (of_int (GoInt.sub (GoInt.len values) 1)) in
    sqrt variance.

Definition CalculateMedian `{Library} (values : list float64) : float64 :=
  if GoInt.len values =? 0 then zero
  else
    let sorted := Float64s values in
    let n := GoInt.len sorted in
    if Z.rem n 2 =? 0
    then div (add (sorted !!! Z.to_nat (GoInt.sub (Z.quot n 2) 1))
                  (sorted !!! Z.to_nat (Z.quot n 2))) (of_int 2)
    else sorted !!! Z.to_nat (Z.quot n 2).

(** [(h *HourlyStats) Finalize()]: the receiver after the call. *)
Definition Finalize (h : HourlyStats.t) : HourlyStats.t :=
  if HourlyStats.Samples h =? 0 then
    {| HourlyStats.Hour := HourlyStats.Hour h;
       HourlyStats.Samples := HourlyStats.Samples h;
       HourlyStats.Min := zero;
       HourlyStats.Max := zero;
       HourlyStats.Sum := HourlyStats.Sum h;
       HourlyStats.Mean := HourlyStats.Mean h;
       HourlyStats.StdDev := HourlyStats.StdDev h;
       HourlyStats.Values := HourlyStats.Values h |}
  else
    let mean := div (HourlyStats.Sum h) (of_int (HourlyStats.Samples h)) in
    {| HourlyStats.Hour := HourlyStats.Hour h;
       HourlyStats.Samples := HourlyStats.Samples h;
       HourlyStats.Min := HourlyStats.Min h;
       HourlyStats.Max := HourlyStats.Max h;
       HourlyStats.Sum := HourlyStats.Sum h;
       HourlyStats.Mean := mean;
       HourlyStats.StdDev := CalculateStdDev (HourlyStats.Values h) mean;
       HourlyStats.Values := HourlyStats.Values h |}.

(** The array after [arr[i].m()] for a pointer-receiver method [m].
    Each slot points to an object of its own, so only slot [i] changes.
    The code calls methods only on slots that its initialisation loop
    has filled; on a [nil] slot, where Go would panic, the array is left
    as it is. *)
Definition call_at {A} (m : A -> A) (i : nat) (arr : list (option A))
  : list (option A) :=
  alter (fmap m) i arr.

Section Hourly.

(** [time.Time] and [t.Format("2006-01-02")]. *)
Context {GoTime : Type} (Format : GoTime -> string).

Definition in_day (p : ParsedPowerData.t GoTime) : bool :=
  (0 <=? ParsedPowerData.Hour p) && (ParsedPowerData.Hour p <? 24).

(** The loop [for _, p := range data] of [AggregateToHourly]. *)
Definition add_samples (data : list (ParsedPowerData.t GoTime))
    (hours : list (option HourlyStats.t)) : list (option HourlyStats.t) :=
  fold_left
    (fun hours p =>
       if in_day p
       then call_at (fun h => AddValue h (ParsedPowerData.Power p))
                    (Z.to_nat (ParsedPowerData.Hour p)) hours
       else hours)
    data hours.

Definition AggregateToHourly (data : list (ParsedPowerData.t GoTime))
  : option DailyStats.t :=
  match data with
  | [] => None
  | first :: _ =>
      let hours := replicate 24 None in
      let hours :=
        for_hours (fun i hours => <[i := Some (NewHourlyStats (Z.of_nat i))]> hours)
                  hours in
      let hours := add_samples data hours in
      let hours := for_hours (fun i hours => call_at Finalize i hours) hours in
      Some {| DailyStats.Date := Format (ParsedPowerData.Date first);
              DailyStats.Hours := hours |}
  end.

End Hourly.

(** The accumulator [&AggregatedHourStats{Hour: i, Min: MaxFloat64, ...}]. *)
Definition NewAggregatedHourStats (i : Z) : AggregatedHourStats.t :=
  {| AggregatedHourStats.Hour := i;
     AggregatedHourStats.SampleDays := 0;
     AggregatedHourStats.Min := MaxFloat64;
     AggregatedHourStats.Max := opp MaxFloat64;
     AggregatedHourStats.Average := zero;
     AggregatedHourStats.Median := zero;
     AggregatedHourStats.StdDev := zero;
     AggregatedHourStats.Values := [] |}.

(** Body of the inner loop of "Aggregate data from all days", once the
    hour is known to have samples. *)
Definition fold_hour (hourStats : HourlyStats.t) (agg : AggregatedHourStats.t)
  : AggregatedHourStats.t :=
  {| AggregatedHourStats.Hour := AggregatedHourStats.Hour agg;
     AggregatedHourStats.SampleDays :=
       GoInt.add (AggregatedHourStats.SampleDays agg) 1;
     AggregatedHourStats.Min :=
       if ltb (HourlyStats.Min hourStats) (AggregatedHourStats.Min agg)
       then HourlyStats.Min hourStats else AggregatedHourStats.Min agg;
     AggregatedHourStats.Max :=
       if gtb (HourlyStats.Max hourStats) (AggregatedHourStats.Max agg)
       then HourlyStats.Max hourStats else AggregatedHourStats.Max agg;
     AggregatedHourStats.Average := AggregatedHourStats.Average agg;
     AggregatedHourStats.Median := AggregatedHourStats.Median agg;
     AggregatedHourStats.StdDev := AggregatedHourStats.StdDev agg;
     AggregatedHourStats.Values :=
       AggregatedHourStats.Values agg ++ [HourlyStats.Mean hourStats] |}.

Definition aggregate_day (day : DailyStats.t)
    (byHour : list (option AggregatedHourStats.t))
  : list (option AggregatedHourStats.t) :=
  for_hours
    (fun hour byHour =>
       match slot (DailyStats.Hours day) hour with
       | None => byHour
       | Some hourStats =>
           if HourlyStats.Samples hourStats =? 0 then byHour
           else call_at (fold_hour hourStats) hour byHour
       end)
    byHour.

(** The loop "Aggregate data from all days". *)
Definition aggregate_days (days : list DailyStats.t)
    (byHour : list (option AggregatedHourStats.t))
  : list (option AggregatedHourStats.t) :=
  fold_left (fun byHour day => aggregate_day day byHour) days byHour.

(** Normalisation of an hour no day contributed to. *)
Definition clear_extremes (agg : AggregatedHourStats.t) : AggregatedHourStats.t :=
  {| AggregatedHourStats.Hour := AggregatedHourStats.Hour agg;
     AggregatedHourStats.SampleDays := AggregatedHourStats.SampleDays agg;
     AggregatedHourStats.Min := zero;
     AggregatedHourStats.Max := zero;
     AggregatedHourStats.Average := AggregatedHourStats.Average agg;
     AggregatedHourStats.Median := AggregatedHourStats.Median agg;
     AggregatedHourStats.StdDev := AggregatedHourStats.StdDev agg;
     AggregatedHourStats.Values := AggregatedHourStats.Values agg |}.

(** Average, median and standard deviation of the hourly means. *)
Definition summarize `{Library} (agg : AggregatedHourStats.t)
  : AggregatedHourStats.t :=
  let sum := fsum (AggregatedHourStats.Values agg) in
  let average := div sum (of_int (GoInt.len (AggregatedHourStats.Values agg))) in
  {| AggregatedHourStats.Hour := AggregatedHourStats.Hour agg;
     AggregatedHourStats.SampleDays := AggregatedHourStats.SampleDays agg;
     AggregatedHourStats.Min := AggregatedHourStats.Min agg;
     AggregatedHourStats.Max := AggregatedHourStats.Max agg;
     AggregatedHourStats.Average := average;
     AggregatedHourStats.Median := CalculateMedian (AggregatedHourStats.Values agg);
     AggregatedHourStats.StdDev :=
       CalculateStdDev (AggregatedHourStats.Values agg) average;
     AggregatedHourStats.Values := AggregatedHourStats.Values agg |}.

(** State of the loop "Calculate final statistics for each hour": the
    local [maxAvg] and the fields of [result] the loop writes. *)
Record peak_state : Type := PeakState {
  maxAvg : float64;
  byHour : list (option AggregatedHourStats.t);
  peakHour : Z;
  peakPowerAvg : float64
}.

Definition final_hour `{Library} (hour : nat) (st : peak_state) : peak_state :=
  match slot (byHour st) hour with
  | None => st
  | Some agg =>
      if AggregatedHourStats.SampleDays agg =? 0 then
        {| maxAvg := maxAvg st;
           byHour := call_at clear_extremes hour (byHour st);
           peakHour := peakHour st;
           peakPowerAvg := peakPowerAvg st |}
      else
        let agg' := summarize agg in
        let byHour' := call_at summarize hour (byHour st) in
        if gtb (AggregatedHourStats.Average agg') (maxAvg st) then
          {| maxAvg := AggregatedHourStats.Average agg';
             byHour := byHour';
             peakHour := Z.of_nat hour;
             peakPowerAvg := AggregatedHourStats.Average agg' |}
        else
          {| maxAvg := maxAvg st;
             byHour := byHour';
             peakHour := peakHour st;
             peakPowerAvg := peakPowerAvg st |}
  end.

(** [dailyEnergy] of one day, in kWh. *)
Definition daily_energy (day : DailyStats.t) : float64 :=
  for_hours
    (fun hour dailyEnergy =>
       match slot (DailyStats.Hours day) hour with
       | None => dailyEnergy
       | Some h => add dailyEnergy (div (HourlyStats.Mean h) (of_int 1000))
       end)
    zero.

(** The loop "Calculate total and daily average production". *)
Definition total_production (days : list DailyStats.t) (total : float64)
  : float64 :=
  fold_left (fun total day => add total (daily_energy day)) days total.

(** The loop "Initialize hourly aggregates". *)
Definition init_by_hour : list (option AggregatedHourStats.t) :=
  for_hours
    (fun i byHour => <[i := Some (NewAggregatedHourStats (Z.of_nat i))]> byHour)
    (replicate 24 None).

(** [maxAvg] and [result] after the loops "Aggregate data from all days"
    and "Calculate final statistics for each hour". *)
Definition final_state `{Library} (days : list DailyStats.t) : peak_state :=
  for_hours final_hour
    {| maxAvg := zero;
       byHour := aggregate_days days init_by_hour;
       peakHour := 0;
       peakPowerAvg := zero |}.

(** [days] is a slice of pointers; the callers pass none that is [nil]
    (on a [nil] element the Go code panics), so the elements are the
    days themselves. *)
Definition AggregateDays `{Library} (days : list DailyStats.t)
  : option MultiDayStats.t :=
  match days with
  | [] => None
  | first :: _ =>
      let daysAnalyzed := GoInt.len days in
      let st := final_state days in
      let total := total_production days zero in
      let dailyAverage :=
        if 0 <? daysAnalyzed then div total (of_int daysAnalyzed) else zero in
      Some {| MultiDayStats.StartDate := DailyStats.Date first;
              MultiDayStats.EndDate := DailyStats.Date (List.last days first);
              MultiDayStats.DaysAnalyzed := daysAnalyzed;
              MultiDayStats.ByHour := byHour st;
              MultiDayStats.TotalProduction := total;
              MultiDayStats.DailyAverage := dailyAverage;
              MultiDayStats.PeakHour := peakHour st;
              MultiDayStats.PeakPowerAvg := peakPowerAvg st |}
  end.

(** The row [HourlyRow{Date: day.Date, Hour: hour, ...}]. *)
Definition hourly_row (day : DailyStats.t) (hour : nat) (h : HourlyStats.t)
  : HourlyRow.t :=
  {| HourlyRow.Date := DailyStats.Date day;
     HourlyRow.Hour := Z.of_nat hour;
     HourlyRow.Min := HourlyStats.Min h;
     HourlyRow.Max := HourlyStats.Max h;
     HourlyRow.Avg := HourlyStats.Mean h;
     HourlyRow.Samples := HourlyStats.Samples h |}.

Definition GetHourlyRows (days : list DailyStats.t) : list HourlyRow.t :=
  fold_left
    (fun rows day =>
       for_hours
         (fun hour rows =>
            match slot (DailyStats.Hours day) hour with
            | None => rows
            | Some h => rows ++ [hourly_row day hour h]
            end)
         rows)
    days [].

(** ** Specification-side notions *)

(** [m] is a minimum of [l]: an element that no element is below. *)
Definition is_minimum (m : float64) (l : list float64) : Prop :=
  m ∈ l /\ Forall (fun v => ltb v m = false) l.

(** [m] is a maximum of [l]: an element that no element is above. *)
Definition is_maximum (m : float64) (l : list float64) : Prop :=
  m ∈ l /\ Forall (fun v => gtb v m = false) l.

(** The bucket of hour [hour] after [values] were added in order. *)
Definition accumulate (hour : Z) (values : list float64) : HourlyStats.t :=
  fold_left AddValue values (NewHourlyStats hour).

(** The accumulator invariant for the values added to a fresh bucket:
    count, sum and, once a value is there, minimum and maximum. *)
Definition accumulator_consistent (hour : Z) (values : list float64) : Prop :=
  let h := accumulate hour values in
  HourlyStats.Values h = values /\
  HourlyStats.Samples h = GoInt.len (HourlyStats.Values h) /\
  HourlyStats.Sum h = fsum (HourlyStats.Values h) /\
  (0 < HourlyStats.Samples h ->
   is_minimum (HourlyStats.Min h) (HourlyStats.Values h) /\
   is_maximum (HourlyStats.Max h) (HourlyStats.Values h)).

(** Increasing order in the sense of [sort.Float64s]. *)
Definition fle (a b : float64) : Prop := less b a = false.

(** What the Go library promises of a sort: the result holds the
    elements of the argument, in increasing order. *)
Definition sorts (sort : list float64 -> list float64) : Prop :=
  forall x, sort x ≡ₚ x /\ StronglySorted fle (sort x).

(** The median of a sorted list as the specification words it: the
    middle value, or the average of the two middle values. *)
Definition middle_of_sorted (sorted : list float64) : float64 :=
  let n := length sorted in
  if Nat.even n
  then div (add (nth (n / 2 - 1) sorted zero) (nth (n / 2) sorted zero)) (of_int 2)
  else nth (n / 2) sorted zero.



(** The powers of the samples of [data] that fall in hour [hour], in
    input order. *)
Definition samples_of {GoTime} (hour : nat)
    (data : list (ParsedPowerData.t GoTime)) : list float64 :=
  ParsedPowerData.Power <$>
    filter (fun p => in_day p = true /\ Z.to_nat (ParsedPowerData.Hour p) = hour)
           data.

(** A bucket as the hourly aggregator leaves it: a count that is not
    negative, a minimum not above and a maximum not below the sentinels. *)
Definition wf_bucket (h : HourlyStats.t) : Prop :=
  0 <= HourlyStats.Samples h /\
  (ltb (HourlyStats.Min h) MaxFloat64 = true \/ HourlyStats.Min h = MaxFloat64) /\
  (gtb (HourlyStats.Max h) (opp MaxFloat64) = true \/
   HourlyStats.Max h = opp MaxFloat64).

Definition wf_day (day : DailyStats.t) : Prop :=
  forall hour h, slot (DailyStats.Hours day) hour = Some h -> wf_bucket h.

(** C1 as stated, for the hourly aggregator: no result when the input is
    empty or has only hours outside 0..23. *)
Definition no_result_without_valid_hours {GoTime} (Format : GoTime -> string)
    (data : list (ParsedPowerData.t GoTime)) : Prop :=
  Forall (fun p => in_day p = false) data -> AggregateToHourly Format data = None.

(** The bucket that [day] folds into hour [hour], if any, as the code
    tests it: a bucket that is there with a count other than 0. *)
Definition contribution (hour : nat) (day : DailyStats.t)
  : option HourlyStats.t :=
  match slot (DailyStats.Hours day) hour with
  | None => None
  | Some hourStats =>
      if HourlyStats.Samples hourStats =? 0 then None else Some hourStats
  end.

Definition contributions (hour : nat) (days : list DailyStats.t)
  : list HourlyStats.t :=
  omap (contribution hour) days.

(** The buckets of the contributing days as the specification words
    it: those with a sample count above 0, in day order. *)
Definition contributing (hour : nat) (days : list DailyStats.t)
  : list HourlyStats.t :=
  omap (fun day =>
          h ← slot (DailyStats.Hours day) hour;
          if 0 <? HourlyStats.Samples h then Some h else None) days.

(** The accumulator of hour [hour] once [buckets] were folded in. *)
Definition gather (hour : nat) (buckets : list HourlyStats.t)
  : AggregatedHourStats.t :=
  fold_left (fun agg hourStats => fold_hour hourStats agg) buckets
            (NewAggregatedHourStats (Z.of_nat hour)).

(** What "Calculate final statistics for each hour" does to one hour. *)
Definition finish `{Library} (agg : AggregatedHourStats.t)
  : AggregatedHourStats.t :=
  if AggregatedHourStats.SampleDays agg =? 0 then clear_extremes agg
  else summarize agg.

(** The cross-day average of hour [hour] in a result. *)
Definition average_at (r : MultiDayStats.t) (hour : nat) : float64 :=
  default zero (AggregatedHourStats.Average <$> slot (MultiDayStats.ByHour r) hour).

(** The peak as the specification words it: one forward scan over the
    hours [0 .. n-1], a running maximum that starts at 0, and an update
    only on a strictly greater average. *)
Definition peak_step (avg : nat -> float64) (peak : Z * float64) (hour : nat)
  : Z * float64 :=
  if gtb (avg hour) (snd peak) then (Z.of_nat hour, avg hour) else peak.

Definition peak_scan (avg : nat -> float64) (n : nat) : Z * float64 :=
  fold_left (peak_step avg) (seq 0 n) (0, zero).

(** The buckets a day has, hour 0 first. *)
Definition buckets (day : DailyStats.t) : list HourlyStats.t :=
  omap (slot (DailyStats.Hours day)) (seq 0 24).

(** The energy of a day as the specification words it: the sum over the
    hours of the mean power in watts over 1000. *)
Definition energy_kwh (day : DailyStats.t) : float64 :=
  fsum ((fun h => div (HourlyStats.Mean h) (of_int 1000)) <$> buckets day).

(** ** Scenarios *)

(** The day built from readings [(hour, watts)], the date being its own
    formatted form; the time of day and the minute, which the
    aggregator does not read, are left empty and 0. *)
Definition day_of (date : string) (readings : list (Z * Z)) : DailyStats.t :=
  default {| DailyStats.Date := date; DailyStats.Hours := [] |}
    (AggregateToHourly (fun d : string => d)
       ((fun hw =>
           ParsedPowerData.Build date EmptyString (of_int (snd hw)) (fst hw) 0)
          <$> readings)).

(** Three days with two readings each at noon. *)
Definition noon_days : list DailyStats.t :=
  [day_of "2025-02-01" [(12, 4000); (12, 4200)];
   day_of "2025-02-02" [(12, 4500); (12, 4700)];
   day_of "2025-02-03" [(12, 4100); (12, 4300)]].

(** Three days with a single reading at noon. *)
Definition single_days : list DailyStats.t :=
  [day_of "2025-02-01" [(12, 4000)];
   day_of "2025-02-02" [(12, 4500)];
   day_of "2025-02-03" [(12, 4200)]].

(** A day on which no hour has a sample. *)
Definition idle_day : DailyStats.t :=
  {| DailyStats.Date := "2025-02-03";
     DailyStats.Hours :=
       (fun i => Some (Finalize (NewHourlyStats (Z.of_nat i)))) <$> seq 0 24 |}.

(** The readings of the repository's test of the hourly aggregator. *)
Definition test_day : DailyStats.t :=
  day_of "2025-02-03"
    [(6, 0); (6, 100); (6, 200); (6, 300); (7, 500); (7, 600);
     (12, 4500); (12, 4600)].

(** The rows of one day: one per hour whose bucket is there. *)
Definition day_rows (day : DailyStats.t) : list HourlyRow.t :=
  omap (fun hour => hourly_row day hour <$> slot (DailyStats.Hours day) hour)
       (seq 0 24).

(** C2 as stated: a row for a day and an hour if and only if the bucket
    has a sample count above 0. *)
Definition rows_for_recorded_hours (days : list DailyStats.t) : Prop :=
  forall row,
    row ∈ GetHourlyRows days <->
    exists day hour h,
      day ∈ days /\ (hour < 24)%nat /\
      slot (DailyStats.Hours day) hour = Some h /\
      0 < HourlyStats.Samples h /\
      row = hourly_row day hour h.

(** ** [CalculateMedian] over a store of slices

    The pure [CalculateMedian] above takes the contents of its argument.
    To speak of what the call does to the caller's slice, the slices
    live here in a store from addresses to contents; a computation
    threads the store and fails on an address that is not allocated. *)

Module Store.

Abbreviation addr := positive (only parsing).
Abbreviation store := (gmap positive (list float64)) (only parsing).

Definition M (A : Type) : Type := store -> option (A * store).

Definition ret {A} (x : A) : M A := fun σ => Some (x, σ).

Definition bind {A B} (m : M A) (k : A -> M B) : M B :=
  fun σ => match m σ with
           | None => None
           | Some (x, σ') => k x σ'
           end.

Notation "'do' x <- m ; k" := (bind m (fun x => k))
  (at level 10, x name, m at level 100, k at level 200, only parsing).
Notation "'run' m ; k" := (bind m (fun _ => k))
  (at level 10, m at level 100, k at level 200, only parsing).

(** The contents of the slice at [a]. *)
Definition load (a : addr) : M (list float64) :=
  fun σ => match σ !! a with
           | None => None
           | Some l => Some (l, σ)
           end.

Definition write (a : addr) (l : list float64) : M unit :=
  fun σ => match σ !! a with
           | None => None
           | Some _ => Some (tt, <[a := l]> σ)
           end.

(** [make([]float64, n)]: a fresh slice of [n] zeros. *)
Definition make (n : nat) : M addr :=
  fun σ => let a := fresh (dom σ) in Some (a, <[a := replicate n zero]> σ).

(** [copy(dst, src)]: as many elements as fit. *)
Definition copy (dst src : addr) : M unit :=
  do d <- load dst;
  do s <- load src;
  write dst (take (length d) s ++ drop (length s) d).

(** [sort.Float64s(a)]: sorts in place. *)
Definition sort_Float64s `{Library} (a : addr) : M unit :=
  do l <- load a;
  write a (Float64s l).

Definition CalculateMedian `{Library} (values : addr) : M float64 :=
  do vs <- load values;
  if GoInt.len vs =? 0 then ret zero
  else
    do sorted <- make (length vs);
    run copy sorted values;
    run sort_Float64s sorted;
    do s <- load sorted;
    let n := GoInt.len s in
    if Z.rem n 2 =? 0
    then ret (div (add (s !!! Z.to_nat (GoInt.sub (Z.quot n 2) 1))
                       (s !!! Z.to_nat (Z.quot n 2))) (of_int 2))
    else ret (s !!! Z.to_nat (Z.quot n 2)).

End Store.

(** ** [pkg/growatt]: from raw readings to days

    [ParsePowerData] turns the readings of a day as the vendor sends
    them, a time of day as text and a power, into the samples the
    hourly aggregator takes. *)

(** The functions of the Go library the parser calls, for the
    one-byte separators it passes. *)
Module GoString.

Definition space : Ascii.ascii := Eval compute in Ascii.ascii_of_nat 32.
Definition colon : Ascii.ascii := Eval compute in Ascii.ascii_of_nat 58.
Definition plus : Ascii.ascii := Eval compute in Ascii.ascii_of_nat 43.
Definition minus : Ascii.ascii := Eval compute in Ascii.ascii_of_nat 45.

(** [strings.Contains(s, sep)] for a separator of one byte. *)
Fixpoint Contains (s : string) (sep : Ascii.ascii) : bool :=
  match s with
  | EmptyString => false
  | String a s' => Ascii.eqb a sep || Contains s' sep
  end.

(** [strings.Split(s, sep)] for a separator of one byte: the pieces
    between the separators, one more than there are separators. *)
Fixpoint Split (s : string) (sep : Ascii.ascii) : list string :=
  match s with
  | EmptyString => [EmptyString]
  | String a s' =>
      if Ascii.eqb a sep then EmptyString :: Split s' sep
      else match Split s' sep with
           | [] => [String a EmptyString]
           | piece :: pieces => String a piece :: pieces
           end
  end.

(** The value of a decimal digit. *)
Definition digit (a : Ascii.ascii) : option Z :=
  let n := Z.of_nat (Ascii.nat_of_ascii a) in
  if (48 <=? n) && (n <=? 57) then Some (n - 48) else None.

Fixpoint digits (s : string) (acc : Z) : option Z :=
  match s with
  | EmptyString => Some acc
  | String a s' =>
      match digit a with
      | None => None
      | Some d => digits s' (10 * acc + d)
      end
  end.

(** [strconv.Atoi(s)]: an optional sign and at least one decimal digit,
    with a value that fits an [int]; [None] is the error. *)
Definition Atoi (s : string) : option Z :=
  match s with
  | EmptyString => None
  | String a s' =>
      let neg := Ascii.eqb a minus in
      let body := if Ascii.eqb a minus || Ascii.eqb a plus then s' else s in
      match body with
      | EmptyString => None
      | _ =>
          match digits body 0 with
          | None => None
          | Some n =>
              let v := if neg then - n else n in
              if (GoInt.min_int <=? v) && (v <=? GoInt.max_int)
              then Some v else None
          end
      end
  end.

End GoString.

(** [growatt.PowerDataPoint]: a single 5-minute power reading. *)
Module PowerDataPoint.
Record t : Type := Build {
  Time : string;
  Power : float64
}.
End PowerDataPoint.

(** [growatt.PowerData]: the readings of one day. *)
Module PowerData.
Record t : Type := Build {
  PlantID : string;
  Date : string;
  Powers : list PowerDataPoint.t
}.
End PowerData.

#[global] Instance string_inhabited_go : Inhabited string := populate EmptyString.

Section Parse.

(** [time.Time], [time.Parse("2006-01-02", s)] with [None] for the
    error, and [t.Format("2006-01-02")]. *)
Context {GoTime : Type} (ParseDate : string -> option GoTime)
        (Format : GoTime -> string).

(** The body of the loop of [ParsePowerData] from the split at the
    colons on: the sample appended for a reading with the time of day
    [timeStr], or [None] where the loop continues without one. *)
Definition parse_time (date : GoTime) (timeStr : string) (power : float64)
  : option (ParsedPowerData.t GoTime) :=
  let parts := GoString.Split timeStr GoString.colon in
  if GoInt.len parts <? 2 then None
  else
    match GoString.Atoi (parts !!! 0%nat) with
    | None => None
    | Some hour =>
        match GoString.Atoi (parts !!! 1%nat) with
        | None => None
        | Some minute =>
            Some (ParsedPowerData.Build date timeStr power hour minute)
        end
    end.

(** The whole body of the loop, for the reading [p]. *)
Definition parse_point (date : GoTime) (p : PowerDataPoint.t)
  : option (ParsedPowerData.t GoTime) :=
  let timeStr := PowerDataPoint.Time p in
  let timeStr :=
    if GoString.Contains timeStr GoString.space then
      let parts := GoString.Split timeStr GoString.space in
      if GoInt.len parts =? 2 then parts !!! 1%nat else timeStr
    else timeStr in
  parse_time date timeStr (PowerDataPoint.Power p).

(** [ParsePowerData]: [None] is the error for a date that does not
    parse. *)
Definition ParsePowerData (data : PowerData.t)
  : option (list (ParsedPowerData.t GoTime)) :=
  match ParseDate (PowerData.Date data) with
  | None => None
  | Some date =>
      Some (fold_left
              (fun result p =>
                 match parse_point date p with
                 | None => result
                 | Some sample => result ++ [sample]
                 end)
              (PowerData.Powers data) [])
  end.

(** The loop "Parse and aggregate to hourly" of [run] in
    [cmd/growatt-export]: the days collected, or [None] where [run]
    returns the parse error. *)
Definition collect_daily_stats (powerData : list PowerData.t)
  : option (list DailyStats.t) :=
  fold_left
    (fun acc pd =>
       match acc with
       | None => None
       | Some dailyStats =>
           match ParsePowerData pd with
           | None => None
           | Some parsed =>
               match AggregateToHourly Format parsed with
               | None => Some dailyStats
               | Some ds => Some (dailyStats ++ [ds])
               end
           end
       end)
    powerData (Some []).

End Parse.

(** What the step "Write multi-day stats if applicable" of [run] hands
    to [writeStatsMarkdown], which reads the fields of its argument at
    once: nothing when the step is skipped, a result, or a [nil]
    pointer. *)
Inductive stats_step : Type :=
  | StatsSkipped
  | StatsWritten (multiDay : MultiDayStats.t)
  | StatsNil.

Definition write_stats_step `{Library} (statsFile : string)
    (dailyStats : list DailyStats.t) : stats_step :=
  if (1 <? GoInt.len dailyStats) && negb (String.eqb statsFile EmptyString) then
    match AggregateDays dailyStats with
    | Some multiDay => StatsWritten multiDay
    | None => StatsNil
    end
  else StatsSkipped.

(** A time of day as the vendor writes it: two digits, a colon, two
    digits. *)
Definition two_digits (n : Z) : string :=
  String (Ascii.ascii_of_nat (Z.to_nat (48 + n / 10)))
    (String (Ascii.ascii_of_nat (Z.to_nat (48 + n mod 10))) EmptyString).

Definition clock (hour minute : Z) : string :=
  String.append (two_digits hour) (String GoString.colon (two_digits minute)).

(** A reading of the power [r.2] at the time of day [r.1.1]:[r.1.2]. *)
Definition reading (r : Z * Z * float64) : PowerDataPoint.t :=
  PowerDataPoint.Build (clock r.1.1 r.1.2) r.2.

(** A library that sorts the long slices as it sorts the short ones.
    It meets the contract [sorts], and the examples are stated for it;
    their slices are short, so that they hold for every library as
    well. *)
#[global] Instance insertion_library : Library := {| pdqsort := insertionSort |}.

(** * Properties *)

(** ** Integers *)

Lemma wrap_small z :
  GoInt.min_int <= z <= GoInt.max_int -> GoInt.wrap z = z.
Proof.
  unfold GoInt.wrap, GoInt.min_int, GoInt.max_int. intros Hz.
  rewrite Z.mod_small by lia. lia.
Qed.

Lemma len_nonneg {A} (l : list A) : 0 <= GoInt.len l.
Proof. unfold GoInt.len. lia. Qed.

Lemma len_app {A} (l k : list A) : GoInt.len (l ++ k) = GoInt.len l + GoInt.len k.
Proof. unfold GoInt.len. rewrite length_app. lia. Qed.

(** ** The order on floats *)

Ltac order_cases :=
  repeat match goal with
  | |- context [Pos.compare_cont Eq ?a ?b] =>
      change (Pos.compare_cont Eq a b) with (a ?= b)%positive
  | H : context [Pos.compare_cont Eq ?a ?b] |- _ =>
      change (Pos.compare_cont Eq a b) with (a ?= b)%positive in H
  end;
  repeat match goal with
  | |- context [(?a ?= ?b)%positive] => destruct (Pos.compare_spec a b)
  | H : context [(?a ?= ?b)%positive] |- _ => destruct (Pos.compare_spec a b)
  | |- context [(?a ?= ?b)%Z] => destruct (Z.compare_spec a b)
  | H : context [(?a ?= ?b)%Z] |- _ => destruct (Z.compare_spec a b)
  end; simpl in *; try congruence; try lia.

Ltac float_cases x m e := destruct x as [[]|[]| |[] m e].

Lemma ltb_irrefl x : ltb x x = false.
Proof.
  unfold ltb, SFltb. float_cases x m e; simpl; try congruence; order_cases.
Qed.

Lemma ltb_asym x y : ltb x y = true -> ltb y x = false.
Proof.
  unfold ltb, SFltb.
  float_cases x m1 e1; float_cases y m2 e2; simpl; try congruence; order_cases.
Qed.

Lemma ltb_trans x y z : ltb x y = true -> ltb y z = true -> ltb x z = true.
Proof.
  unfold ltb, SFltb.
  float_cases x m1 e1; float_cases y m2 e2; float_cases z m3 e3;
    simpl; try congruence; order_cases.
Qed.

(** Below a strict lower bound of [y] nothing reaches [y]. *)
Lemma ltb_lower x y z : ltb z x = false -> ltb y x = true -> ltb z y = false.
Proof.
  intros Hzx Hyx. destruct (ltb z y) eqn:Hzy; [|done].
  rewrite (ltb_trans _ _ _ Hzy Hyx) in Hzx. done.
Qed.

Lemma gtb_upper x y z : gtb z x = false -> gtb y x = true -> gtb z y = false.
Proof.
  unfold gtb. intros Hzx Hyx. destruct (ltb y z) eqn:Hzy; [|done].
  unfold gtb in Hzx, Hyx.
  rewrite (ltb_trans _ _ _ Hyx Hzy) in Hzx. done.
Qed.

(** ** Idle hours *)

(** C3: a bucket to which no value was added shows, once finalized, the
    minimum, maximum, mean and standard deviation 0; the sentinels
    [MaxFloat64] and [-MaxFloat64] are gone. *)
Theorem idle_bucket_normalized (hour : Z) :
  let h := Finalize (accumulate hour []) in
  HourlyStats.Samples h = 0 /\
  HourlyStats.Min h = zero /\ HourlyStats.Max h = zero /\
  HourlyStats.Mean h = zero /\ HourlyStats.StdDev h = zero /\
  HourlyStats.Min h <> MaxFloat64 /\ HourlyStats.Max h <> opp MaxFloat64.
Proof.
  cbn. repeat split; discriminate.
Qed.

(** ** The largest finite float *)

Lemma digits2_pos_size m : digits2_pos m = Pos.size m.
Proof. induction m as [m IH|m IH|]; simpl; congruence. Qed.

Lemma digits2_pos_bound m d :
  Z.pos (digits2_pos m) = d -> Z.pos m < 2 ^ d.
Proof.
  intros <-. rewrite digits2_pos_size.
  pose proof (Pos.size_gt m) as H.
  apply Pos2Z.pos_lt_pos in H. rewrite Pos2Z.inj_pow in H. exact H.
Qed.

Lemma bounded_top m :
  bounded prec emax m 971 = true -> Z.pos m <= 9007199254740991.
Proof.
  unfold bounded, canonical_mantissa, fexp, emin, prec, emax.
  intros [Hc _]%andb_true_iff. apply Z.eqb_eq in Hc.
  assert (Z.pos (digits2_pos m) = 53) as Hd by lia.
  apply digits2_pos_bound in Hd. change (2 ^ 53) with 9007199254740992 in Hd.
  clear Hc. lia.
Qed.

Lemma bounded_exp m e : bounded prec emax m e = true -> e <= 971.
Proof.
  unfold bounded, prec, emax. intros [_ He]%andb_true_iff.
  apply Z.leb_le in He. lia.
Qed.

Lemma compare_cont_Z m n :
  Pos.compare_cont Eq m n = (Z.pos m ?= Z.pos n).
Proof. reflexivity. Qed.

(** A finite float is below [MaxFloat64] or is [MaxFloat64]. *)
Lemma finite_max x :
  finite x = true -> ltb x MaxFloat64 = false -> x = MaxFloat64.
Proof.
  unfold ltb, SFltb, MaxFloat64.
  float_cases x m e; cbn [finite SFcompare]; try discriminate.
  intros Hb. pose proof (bounded_exp _ _ Hb) as He.
  destruct (Z.compare_spec e 971) as [->| |]; try discriminate; try lia.
  pose proof (bounded_top _ Hb) as Hm.
  rewrite compare_cont_Z.
  destruct (Z.compare_spec (Z.pos m) (Z.pos 9007199254740991)) as [Heq| |];
    try discriminate; try lia.
  injection Heq as ->. reflexivity.
Qed.

Lemma finite_min x :
  finite x = true -> gtb x (opp MaxFloat64) = false -> x = opp MaxFloat64.
Proof.
  unfold gtb, ltb, SFltb, MaxFloat64.
  float_cases x m e; cbn [finite SFcompare opp SFopp negb]; try discriminate.
  intros Hb. pose proof (bounded_exp _ _ Hb) as He.
  rewrite Z.compare_antisym.
  destruct (Z.compare_spec e 971) as [->| |]; cbn [CompOpp];
    try discriminate; try lia.
  pose proof (bounded_top _ Hb) as Hm.
  rewrite compare_cont_Z, Z.compare_antisym.
  destruct (Z.compare_spec (Z.pos m) (Z.pos 9007199254740991)) as [Heq| |];
    cbn [CompOpp]; try discriminate; try lia.
  injection Heq as ->. reflexivity.
Qed.

(** ** The hourly accumulator *)

Lemma accumulate_snoc hour values v :
  accumulate hour (values ++ [v]) = AddValue (accumulate hour values) v.
Proof. unfold accumulate. rewrite fold_left_app. reflexivity. Qed.

Lemma fsum_snoc l v : fsum (l ++ [v]) = add (fsum l) v.
Proof. unfold fsum. rewrite fold_left_app. reflexivity. Qed.

Lemma accumulate_Values hour values :
  HourlyStats.Values (accumulate hour values) = values.
Proof.
  induction values as [|v values IH] using rev_ind; [done|].
  rewrite accumulate_snoc. simpl. by rewrite IH.
Qed.

Lemma accumulate_Sum hour values :
  HourlyStats.Sum (accumulate hour values) = fsum values.
Proof.
  induction values as [|v values IH] using rev_ind; [done|].
  rewrite accumulate_snoc, fsum_snoc. simpl. by rewrite IH.
Qed.

Lemma accumulate_Samples hour values :
  GoInt.is_slice values ->
  HourlyStats.Samples (accumulate hour values) = GoInt.len values.
Proof.
  unfold GoInt.is_slice.
  induction values as [|v values IH] using rev_ind; [done|].
  rewrite accumulate_snoc, len_app. simpl. intros Hlen.
  pose proof (len_nonneg values) as H0.
  change (GoInt.len [v]) with 1 in *.
  rewrite IH by lia. unfold GoInt.add. apply wrap_small.
  unfold GoInt.min_int, GoInt.max_int in *. lia.
Qed.

(** The running minimum is a minimum of the values seen so far, once
    the first value has displaced the sentinel. *)
Lemma is_minimum_step m l v :
  is_minimum m l -> is_minimum (if ltb v m then v else m) (l ++ [v]).
Proof.
  intros [Hin Hlow]. destruct (ltb v m) eqn:Hvm; split.
  - apply elem_of_app. right. by apply list_elem_of_singleton.
  - apply Forall_app. split.
    + eapply Forall_impl; [exact Hlow|]. intros z Hz. simpl in Hz.
      eapply ltb_lower; eauto.
    + apply Forall_singleton, ltb_irrefl.
  - apply elem_of_app. by left.
  - apply Forall_app. split; [done|]. by apply Forall_singleton.
Qed.

Lemma is_maximum_step m l v :
  is_maximum m l -> is_maximum (if gtb v m then v else m) (l ++ [v]).
Proof.
  intros [Hin Hup]. destruct (gtb v m) eqn:Hvm; split.
  - apply elem_of_app. right. by apply list_elem_of_singleton.
  - apply Forall_app. split.
    + eapply Forall_impl; [exact Hup|]. intros z Hz. simpl in Hz.
      eapply gtb_upper; eauto.
    + apply Forall_singleton. unfold gtb. apply ltb_irrefl.
  - apply elem_of_app. by left.
  - apply Forall_app. split; [done|]. by apply Forall_singleton.
Qed.

Lemma is_minimum_single v s :
  ltb v s = true \/ v = s -> is_minimum (if ltb v s then v else s) [v].
Proof.
  intros [Hlt|Heq].
  - rewrite Hlt. split; [by apply list_elem_of_singleton|].
    apply Forall_singleton, ltb_irrefl.
  - rewrite <- Heq, ltb_irrefl. split; [by apply list_elem_of_singleton|].
    apply Forall_singleton, ltb_irrefl.
Qed.

Lemma is_maximum_single v s :
  gtb v s = true \/ v = s -> is_maximum (if gtb v s then v else s) [v].
Proof.
  unfold is_maximum, gtb. intros [Hgt|Heq].
  - rewrite Hgt. split; [by apply list_elem_of_singleton|].
    apply Forall_singleton, ltb_irrefl.
  - rewrite <- Heq, ltb_irrefl. split; [by apply list_elem_of_singleton|].
    apply Forall_singleton, ltb_irrefl.
Qed.

Lemma is_minimum_first v :
  finite v = true ->
  is_minimum (if ltb v MaxFloat64 then v else MaxFloat64) [v].
Proof.
  intros Hv. destruct (ltb v MaxFloat64) eqn:Hlt.
  - split; [by apply list_elem_of_singleton|].
    apply Forall_singleton, ltb_irrefl.
  - rewrite <- (finite_max v Hv Hlt).
    split; [by apply list_elem_of_singleton|].
    apply Forall_singleton, ltb_irrefl.
Qed.

Lemma is_maximum_first v :
  finite v = true ->
  is_maximum (if gtb v (opp MaxFloat64) then v else opp MaxFloat64) [v].
Proof.
  intros Hv. destruct (gtb v (opp MaxFloat64)) eqn:Hgt.
  - split; [by apply list_elem_of_singleton|].
    apply Forall_singleton. unfold gtb. apply ltb_irrefl.
  - rewrite <- (finite_min v Hv Hgt).
    split; [by apply list_elem_of_singleton|].
    apply Forall_singleton. unfold gtb. apply ltb_irrefl.
Qed.

Lemma accumulate_extremes hour values :
  Forall (fun v => finite v = true) values -> values <> [] ->
  is_minimum (HourlyStats.Min (accumulate hour values)) values /\
  is_maximum (HourlyStats.Max (accumulate hour values)) values.
Proof.
  induction values as [|v values IH] using rev_ind; [done|].
  intros [Hvs Hv]%Forall_app _. apply Forall_inv in Hv.
  rewrite accumulate_snoc. cbn [AddValue HourlyStats.Min HourlyStats.Max].
  destruct values as [|w values'].
  - split; [by apply is_minimum_first | by apply is_maximum_first].
  - destruct IH as [Hmin Hmax]; [done..|].
    split; [by apply is_minimum_step | by apply is_maximum_step].
Qed.

(** C9, as the code has it: after any sequence of [AddValue] calls on a
    fresh bucket [Values] holds the values added, in order, and [Sum] is
    their sum; the count is their number, for as many values as a Go
    slice can hold (beyond, the 64-bit count would wrap).  When every
    added value is a finite number (neither NaN nor an infinity) and
    there is at least one, [Min] is the minimum and [Max] the maximum of
    [Values]; so for finite values the invariant holds as a whole. *)
Theorem accumulator_consistent_finite (hour : Z) (values : list float64) :
  HourlyStats.Values (accumulate hour values) = values /\
  HourlyStats.Sum (accumulate hour values)
  = fsum (HourlyStats.Values (accumulate hour values)) /\
  (GoInt.is_slice values ->
   HourlyStats.Samples (accumulate hour values)
   = GoInt.len (HourlyStats.Values (accumulate hour values))) /\
  (Forall (fun v => finite v = true) values -> values <> [] ->
   is_minimum (HourlyStats.Min (accumulate hour values))
              (HourlyStats.Values (accumulate hour values)) /\
   is_maximum (HourlyStats.Max (accumulate hour values))
              (HourlyStats.Values (accumulate hour values))) /\
  (GoInt.is_slice values -> Forall (fun v => finite v = true) values ->
   accumulator_consistent hour values).
Proof.
  rewrite accumulate_Values.
  split; [done|]. split; [apply accumulate_Sum|].
  split; [apply accumulate_Samples|].
  split; [apply accumulate_extremes|].
  intros Hlen Hfin. unfold accumulator_consistent. cbv zeta.
  rewrite accumulate_Values.
  split; [done|]. split; [by apply accumulate_Samples|].
  split; [apply accumulate_Sum|].
  rewrite accumulate_Samples by done.
  destruct values; [done|]. intros _. by apply accumulate_extremes.
Qed.

Lemma accumulator_consistent_finite_witness :
  accumulator_consistent 6 [of_int 0; of_int 100; of_int 200; of_int 300].
Proof.
  apply (accumulator_consistent_finite 6
           [of_int 0; of_int 100; of_int 200; of_int 300]).
  - unfold GoInt.is_slice. vm_compute. discriminate.
  - repeat constructor.
Defined.

(** C9 fails as stated: after [AddValue(+Inf)] on a fresh bucket the
    minimum is still the sentinel [MaxFloat64], which is not among the
    values. *)
Lemma accumulator_consistent_inf_counterexample :
  ~ accumulator_consistent 0 [pinf].
Proof.
  unfold accumulator_consistent. cbv zeta.
  intros (_ & _ & _ & Hext). destruct Hext as [[Hin _] _]; [done|].
  vm_compute in Hin. apply list_elem_of_singleton in Hin. discriminate.
Qed.

(** ** Sorting *)

Section Statistics.

(** The library is any one; its sort of long slices is assumed to meet
    its contract only where this is said. *)
Context {library : Library}.

Lemma less_asym x y : less x y = true -> less y x = false.
Proof.
  unfold less, ltb, SFltb.
  float_cases x m1 e1; float_cases y m2 e2; cbn; try discriminate;
    try reflexivity; order_cases.
Qed.

Lemma fle_trans a b c : fle a b -> fle b c -> fle a c.
Proof.
  unfold fle, less, ltb, SFltb.
  float_cases a m1 e1; float_cases b m2 e2; float_cases c m3 e3; cbn;
    try discriminate; try reflexivity; order_cases.
Qed.

Lemma insert_perm x l : insert x l ≡ₚ x :: l.
Proof.
  induction l as [|y l IH]; cbn; [done|].
  destruct (less x y); [done|].
  rewrite IH. apply Permutation_swap.
Qed.

Lemma insertionSort_perm_acc l acc :
  fold_left (fun acc x => insert x acc) l acc ≡ₚ l ++ acc.
Proof.
  revert acc. induction l as [|x l IH]; intros acc; cbn; [done|].
  rewrite IH, insert_perm. by rewrite Permutation_middle.
Qed.

Lemma insertionSort_perm l : insertionSort l ≡ₚ l.
Proof.
  unfold insertionSort. rewrite insertionSort_perm_acc. by rewrite app_nil_r.
Qed.

Lemma insert_sorted x l :
  StronglySorted fle l -> StronglySorted fle (insert x l).
Proof.
  induction l as [|y l IH]; cbn; intros Hs.
  - repeat constructor.
  - apply StronglySorted_inv in Hs as [Hl Hy].
    destruct (less x y) eqn:Hxy.
    + constructor; [by constructor|].
      constructor; [by apply less_asym|].
      eapply Forall_impl; [exact Hy|]. intros z Hz.
      eapply fle_trans; [|exact Hz]. by apply less_asym.
    + constructor; [by apply IH|].
      rewrite insert_perm. by constructor.
Qed.

Lemma insertionSort_sorted_acc l acc :
  StronglySorted fle acc ->
  StronglySorted fle (fold_left (fun acc x => insert x acc) l acc).
Proof.
  revert acc. induction l as [|x l IH]; intros acc Hacc; cbn; [done|].
  by apply IH, insert_sorted.
Qed.

Lemma insertionSort_sorted l : StronglySorted fle (insertionSort l).
Proof. apply insertionSort_sorted_acc. constructor. Qed.

(** The insertion sort meets the contract of the library. *)
Lemma insertionSort_sorts : sorts insertionSort.
Proof.
  intros x. split; [apply insertionSort_perm | apply insertionSort_sorted].
Qed.

(** [sort.Float64s] returns the elements it was given, in increasing
    order, once the sort of the long slices does. *)
Lemma Float64s_sorts : sorts pdqsort -> sorts Float64s.
Proof.
  intros Hlong x. unfold Float64s.
  destruct (GoInt.len x <=? 12); [apply insertionSort_sorts | apply Hlong].
Qed.

Lemma Float64s_perm l : sorts pdqsort -> Float64s l ≡ₚ l.
Proof. intros Hlong. apply (Float64s_sorts Hlong). Qed.

Lemma Float64s_length l : sorts pdqsort -> length (Float64s l) = length l.
Proof. intros Hlong. by apply Permutation_length, Float64s_perm. Qed.

Lemma Float64s_sorted l : sorts pdqsort -> StronglySorted fle (Float64s l).
Proof. intros Hlong. apply (Float64s_sorts Hlong). Qed.

(** On a slice of at most 12 elements no assumption is needed. *)
Lemma Float64s_short l :
  (length l <= 12)%nat -> Float64s l = insertionSort l.
Proof.
  intros Hl. unfold Float64s.
  by rewrite (proj2 (Z.leb_le _ _)) by (unfold GoInt.len; lia).
Qed.

(** ** The median *)

Lemma lookup_total_nth (l : list float64) i : l !!! i = nth i l zero.
Proof. by rewrite list_lookup_total_alt, nth_lookup. Qed.

Lemma even_of_nat (n : nat) : Z.even (Z.of_nat n) = Nat.even n.
Proof.
  induction n as [|n IH]; [done|].
  rewrite Nat2Z.inj_succ, Z.even_succ, Nat.even_succ.
  by rewrite <- Z.negb_even, <- Nat.negb_even, IH.
Qed.

Lemma rem2_even (n : nat) : (Z.rem (Z.of_nat n) 2 =? 0) = Nat.even n.
Proof.
  rewrite Z.rem_mod_nonneg by lia.
  by rewrite <- Zeven_mod, even_of_nat.
Qed.

Lemma quot2_half (n : nat) : Z.to_nat (Z.quot (Z.of_nat n) 2) = (n / 2)%nat.
Proof.
  rewrite Z.quot_div_nonneg by lia.
  change 2 with (Z.of_nat 2). rewrite <- Nat2Z.inj_div. lia.
Qed.

Lemma CalculateMedian_middle values :
  sorts pdqsort ->
  GoInt.is_slice values -> values <> [] ->
  CalculateMedian values = middle_of_sorted (Float64s values).
Proof.
  unfold GoInt.is_slice, CalculateMedian, middle_of_sorted.
  intros Hlong Hlen Hne.
  assert ((GoInt.len values =? 0) = false) as ->.
  { apply Z.eqb_neq. unfold GoInt.len. destruct values; [done|cbn; lia]. }
  cbv zeta.
  assert (GoInt.len (Float64s values) = Z.of_nat (length values)) as ->.
  { unfold GoInt.len. by rewrite Float64s_length. }
  rewrite Float64s_length, rem2_even, !lookup_total_nth, quot2_half by done.
  destruct (Nat.even (length values)); [|done].
  do 3 f_equal. unfold GoInt.sub.
  assert (0 <= Z.quot (Z.of_nat (length values)) 2 <= Z.of_nat (length values)).
  { rewrite Z.quot_div_nonneg by lia. split; [apply Z.div_pos; lia|].
    apply Z.div_le_upper_bound; lia. }
  unfold GoInt.len, GoInt.max_int in Hlen.
  rewrite wrap_small by (unfold GoInt.min_int, GoInt.max_int; lia).
  rewrite Z2Nat.inj_sub by lia. by rewrite quot2_half.
Qed.

(** C5: [CalculateMedian] sorts the values first; the result is 0 for
    the empty list, the exact middle sorted value for an odd length and
    the average of the two middle sorted values for an even length; in
    particular the medians of [1,3,5], [1,2,3,4] and [5,2,8,1,9] are 3,
    2.5 and 5.  The sorted values are those [sort.Float64s] leaves: for
    at most 12 values the result of the insertion sort, for more the
    result of the library's quicksort, of which the statement assumes
    the contract and nothing else (the place of 0 among -0, say, is
    the library's). *)
Theorem CalculateMedian_sorts_and_takes_middle (values : list float64) :
  sorts pdqsort ->
  GoInt.is_slice values ->
  ((length values <= 12)%nat -> Float64s values = insertionSort values) /\
  (Float64s values ≡ₚ values /\ StronglySorted fle (Float64s values)) /\
  (values = [] -> CalculateMedian values = zero) /\
  (values <> [] ->
   CalculateMedian values = middle_of_sorted (Float64s values) /\
   (Nat.Odd (length values) ->
    CalculateMedian values = nth (length values / 2) (Float64s values) zero) /\
   (Nat.Even (length values) ->
    CalculateMedian values =
      div (add (nth (length values / 2 - 1) (Float64s values) zero)
               (nth (length values / 2) (Float64s values) zero)) (of_int 2))) /\
  CalculateMedian (of_int <$> [1; 3; 5]) = of_int 3 /\
  CalculateMedian (of_int <$> [1; 2; 3; 4]) = div (of_int 5) (of_int 2) /\
  CalculateMedian (of_int <$> [5; 2; 8; 1; 9]) = of_int 5.
Proof.
  intros Hlong Hlen. split; [apply Float64s_short|].
  split; [split; [by apply Float64s_perm | by apply Float64s_sorted]|].
  split; [by intros ->|]. split.
  - intros Hne. rewrite CalculateMedian_middle by done.
    unfold middle_of_sorted. rewrite Float64s_length by done. cbv zeta.
    split; [done|]. split.
    + intros Hodd%Nat.odd_spec. rewrite <- Nat.negb_odd, Hodd. done.
    + intros Heven%Nat.even_spec. by rewrite Heven.
  - repeat split; vm_compute; reflexivity.
Qed.

(** ** Loops over the 24 hours *)

Lemma fold_hours_lookup {A} (body : nat -> list A -> list A)
    (g : nat -> option A -> option A) (n : nat) (arr : list A) (j : nat) :
  (forall i arr, body i arr !! i = g i (arr !! i)) ->
  (forall i k arr, i <> k -> body i arr !! k = arr !! k) ->
  fold_left (fun s i => body i s) (seq 0 n) arr !! j
  = if decide (j < n)%nat then g j (arr !! j) else arr !! j.
Proof.
  intros Hat Hother. induction n as [|n IH].
  - cbn. by rewrite decide_False by lia.
  - rewrite seq_S, fold_left_app. cbn [fold_left Nat.add].
    destruct (decide (n = j)) as [->|Hne].
    + rewrite Hat, IH. rewrite decide_False by lia. by rewrite decide_True by lia.
    + rewrite Hother, IH by done.
      destruct (decide (j < n)%nat); [by rewrite decide_True by lia|].
      by rewrite decide_False by lia.
Qed.

Lemma for_hours_lookup {A} (body : nat -> list A -> list A)
    (g : nat -> option A -> option A) (arr : list A) (j : nat) :
  (forall i arr, body i arr !! i = g i (arr !! i)) ->
  (forall i k arr, i <> k -> body i arr !! k = arr !! k) ->
  for_hours body arr !! j
  = if decide (j < 24)%nat then g j (arr !! j) else arr !! j.
Proof. apply fold_hours_lookup. Qed.

Lemma for_hours_length {A} (body : nat -> list A -> list A) (arr : list A) :
  (forall i arr, length (body i arr) = length arr) ->
  length (for_hours body arr) = length arr.
Proof.
  intros Hlen. unfold for_hours. generalize (seq 0 24). intros l. revert arr.
  induction l as [|i l IH]; intros arr; cbn; [done|]. by rewrite IH, Hlen.
Qed.

Lemma call_at_lookup_eq {A} (m : A -> A) i (arr : list (option A)) :
  call_at m i arr !! i = fmap m <$> arr !! i.
Proof. apply list_lookup_alter_eq. Qed.

Lemma call_at_lookup_ne {A} (m : A -> A) i k (arr : list (option A)) :
  i <> k -> call_at m i arr !! k = arr !! k.
Proof. apply list_lookup_alter_ne. Qed.

Lemma insert_lookup_same {A} (x : A) i (arr : list A) :
  <[i := x]> arr !! i = (fun _ => x) <$> arr !! i.
Proof.
  destruct (decide (i < length arr)%nat) as [Hlt|Hge].
  - rewrite list_lookup_insert_eq by done.
    apply lookup_lt_is_Some in Hlt as [y ->]. done.
  - rewrite list_insert_ge by lia. rewrite lookup_ge_None_2 by lia. done.
Qed.

Lemma fold_call_at_lookup {A} (m : nat -> A -> A) n (arr : list (option A)) j :
  fold_left (fun arr i => call_at (m i) i arr) (seq 0 n) arr !! j
  = if decide (j < n)%nat then fmap (m j) <$> arr !! j else arr !! j.
Proof.
  apply (fold_hours_lookup _ (fun i o => fmap (m i) <$> o)).
  - intros. apply call_at_lookup_eq.
  - intros. by apply call_at_lookup_ne.
Qed.

Lemma for_hours_call_at {A} (m : nat -> A -> A) (arr : list (option A)) j :
  for_hours (fun i arr => call_at (m i) i arr) arr !! j
  = if decide (j < 24)%nat then fmap (m j) <$> arr !! j else arr !! j.
Proof. apply fold_call_at_lookup. Qed.

(** The array of 24 fresh objects built by the initialisation loops. *)
Lemma init_lookup {A} (new : Z -> A) (j : nat) :
  slot (for_hours (fun i arr => <[i := Some (new (Z.of_nat i))]> arr)
                  (replicate 24 None)) j
  = if decide (j < 24)%nat then Some (new (Z.of_nat j)) else None.
Proof.
  unfold slot.
  rewrite (for_hours_lookup _ (fun i o => (fun _ => Some (new (Z.of_nat i))) <$> o)).
  - destruct (decide (j < 24)%nat) as [Hlt|Hge].
    + rewrite lookup_replicate_2 by done. done.
    + rewrite lookup_ge_None_2; [done|]. rewrite length_replicate. lia.
  - intros i arr. apply insert_lookup_same.
  - intros i k arr Hne. by apply list_lookup_insert_ne.
Qed.

(** ** The hourly aggregator *)

Section HourlyFacts.

Context {GoTime : Type} (Format : GoTime -> string).

Lemma add_samples_lookup (data : list (ParsedPowerData.t GoTime)) hours j :
  add_samples data hours !! j
  = fmap (fun h => fold_left AddValue (samples_of j data) h) <$> hours !! j.
Proof.
  revert hours. unfold add_samples, samples_of.
  induction data as [|p data IH]; intros hours.
  - cbn. destruct (hours !! j) as [[h|]|]; done.
  - cbn [fold_left]. rewrite IH. rewrite filter_cons.
    destruct (in_day p) eqn:Hday.
    + destruct (decide (Z.to_nat (ParsedPowerData.Hour p) = j)) as [<-|Hne].
      * rewrite decide_True by done. rewrite call_at_lookup_eq.
        destruct (hours !! _) as [[h|]|]; done.
      * rewrite decide_False by (intros [_ ?]; done).
        by rewrite call_at_lookup_ne.
    + rewrite decide_False by (intros [? _]; done). done.
Qed.

(** A non-empty input yields a day whose every hour holds the finalized
    bucket of its samples. *)
Lemma AggregateToHourly_cons (first : ParsedPowerData.t GoTime) data :
  exists ds,
    AggregateToHourly Format (first :: data) = Some ds /\
    DailyStats.Date ds = Format (ParsedPowerData.Date first) /\
    forall j,
      slot (DailyStats.Hours ds) j
      = if decide (j < 24)%nat
        then Some (Finalize (accumulate (Z.of_nat j)
                                        (samples_of j (first :: data))))
        else None.
Proof.
  eexists. split; [reflexivity|]. split; [reflexivity|]. intros j.
  cbn [DailyStats.Hours].
  pose proof (init_lookup NewHourlyStats j) as Hinit. unfold slot in *.
  rewrite (for_hours_call_at (fun _ => Finalize)).
  rewrite add_samples_lookup.
  destruct (decide (j < 24)%nat) as [Hlt|Hge].
  - destruct (_ !! j) as [[h|]|]; try done. by injection Hinit as ->.
  - destruct (_ !! j) as [[h|]|]; done.
Qed.

Lemma AggregateToHourly_hour (data : list (ParsedPowerData.t GoTime)) ds j :
  AggregateToHourly Format data = Some ds ->
  slot (DailyStats.Hours ds) j
  = if decide (j < 24)%nat
    then Some (Finalize (accumulate (Z.of_nat j) (samples_of j data)))
    else None.
Proof.
  destruct data as [|first data]; [done|].
  destruct (AggregateToHourly_cons first data) as (ds' & -> & _ & Hhours).
  intros [= <-]. apply Hhours.
Qed.

Lemma samples_of_invalid (data : list (ParsedPowerData.t GoTime)) j :
  Forall (fun p => in_day p = false) data -> samples_of j data = [].
Proof.
  unfold samples_of. induction 1 as [|p data Hp _ IH]; [done|].
  rewrite filter_cons, decide_False; [done|]. intros [? _]. congruence.
Qed.

End HourlyFacts.

(** C1 fails as stated: a sample list that is not empty but has only
    hours outside 0..23 still yields a [DailyStats]. *)
Lemma no_result_without_valid_hours_counterexample :
  ~ no_result_without_valid_hours (fun d : string => d)
      [ParsedPowerData.Build "2025-02-03" "24:00" (of_int 100) 24 0].
Proof.
  unfold no_result_without_valid_hours. intros H.
  assert (Forall (fun p : ParsedPowerData.t string => in_day p = false)
            [ParsedPowerData.Build "2025-02-03" "24:00" (of_int 100) 24 0])
    as Hall by (repeat constructor).
  specialize (H Hall). discriminate H.
Qed.

(** C1, as the code has it: the hourly aggregator returns nothing
    exactly when the sample list is empty; a non-empty list whose every
    sample has an hour outside 0..23 yields a day with 24 idle buckets
    (no samples, minimum, maximum, mean and deviation 0); the multi-day
    aggregator returns nothing on the empty list.  Both results are a
    possibly absent object, never an error. *)
Theorem no_result_iff_empty {GoTime : Type} (Format : GoTime -> string)
    (data : list (ParsedPowerData.t GoTime)) :
  (AggregateToHourly Format data = None <-> data = []) /\
  (data <> [] -> Forall (fun p => in_day p = false) data ->
   exists ds,
     AggregateToHourly Format data = Some ds /\
     forall j, (j < 24)%nat ->
       slot (DailyStats.Hours ds) j
       = Some (Finalize (NewHourlyStats (Z.of_nat j))) /\
       exists h, slot (DailyStats.Hours ds) j = Some h /\
         HourlyStats.Samples h = 0 /\
         HourlyStats.Min h = zero /\ HourlyStats.Max h = zero /\
         HourlyStats.Mean h = zero /\ HourlyStats.StdDev h = zero) /\
  AggregateDays [] = None.
Proof.
  split; [|split; [|reflexivity]].
  - destruct data; [done|]. split; [|done].
    destruct (AggregateToHourly_cons Format t data) as (ds & -> & _). done.
  - intros Hne Hall. destruct data as [|first data]; [done|].
    destruct (AggregateToHourly_cons Format first data) as (ds & -> & _ & Hh).
    exists ds. split; [done|]. intros j Hj.
    rewrite Hh, decide_True, samples_of_invalid by done.
    split; [done|]. eexists. split; [reflexivity|]. by cbn.
Qed.

(** ** Buckets left by the hourly aggregator *)

Lemma accumulate_Min_bound hour values :
  ltb (HourlyStats.Min (accumulate hour values)) MaxFloat64 = true \/
  HourlyStats.Min (accumulate hour values) = MaxFloat64.
Proof.
  induction values as [|v values IH] using rev_ind; [by right|].
  rewrite accumulate_snoc. cbn [AddValue HourlyStats.Min].
  destruct (ltb v _) eqn:Hlt; [|done]. left.
  destruct IH as [IH|IH]; [by eapply ltb_trans | by rewrite <- IH].
Qed.

Lemma accumulate_Max_bound hour values :
  gtb (HourlyStats.Max (accumulate hour values)) (opp MaxFloat64) = true \/
  HourlyStats.Max (accumulate hour values) = opp MaxFloat64.
Proof.
  induction values as [|v values IH] using rev_ind; [by right|].
  rewrite accumulate_snoc. cbn [AddValue HourlyStats.Max].
  destruct (gtb v _) eqn:Hgt; [|done]. left.
  destruct IH as [IH|IH]; [|by rewrite <- IH].
  unfold gtb in *. by eapply ltb_trans.
Qed.

Lemma Finalize_Samples h : HourlyStats.Samples (Finalize h) = HourlyStats.Samples h.
Proof. unfold Finalize. by destruct (_ =? 0). Qed.

Lemma Finalize_wf h :
  0 <= HourlyStats.Samples h ->
  (ltb (HourlyStats.Min h) MaxFloat64 = true \/ HourlyStats.Min h = MaxFloat64) ->
  (gtb (HourlyStats.Max h) (opp MaxFloat64) = true \/
   HourlyStats.Max h = opp MaxFloat64) ->
  wf_bucket (Finalize h).
Proof.
  intros Hs Hmin Hmax. unfold wf_bucket. rewrite Finalize_Samples.
  split; [done|]. unfold Finalize.
  destruct (_ =? 0); cbn [HourlyStats.Min HourlyStats.Max]; [|done].
  split; left; vm_compute; reflexivity.
Qed.

Lemma samples_of_slice {GoTime} j (data : list (ParsedPowerData.t GoTime)) :
  GoInt.is_slice data -> GoInt.is_slice (samples_of j data).
Proof.
  unfold GoInt.is_slice, GoInt.len, samples_of. rewrite length_fmap.
  pose proof (length_filter
    (fun p : ParsedPowerData.t GoTime =>
       in_day p = true /\ Z.to_nat (ParsedPowerData.Hour p) = j) data).
  lia.
Qed.

(** Whatever the samples are, the day the hourly aggregator returns is
    well formed. *)
Lemma AggregateToHourly_wf {GoTime} (Format : GoTime -> string)
    (data : list (ParsedPowerData.t GoTime)) ds :
  GoInt.is_slice data ->
  AggregateToHourly Format data = Some ds -> wf_day ds.
Proof.
  intros Hlen Hds j h. rewrite (AggregateToHourly_hour Format data ds j Hds).
  destruct (decide (j < 24)%nat); [|done]. intros [= <-].
  apply Finalize_wf.
  - rewrite accumulate_Samples by by apply samples_of_slice.
    apply len_nonneg.
  - apply accumulate_Min_bound.
  - apply accumulate_Max_bound.
Qed.

(** ** The multi-day aggregator: the loops *)

Lemma aggregate_day_lookup day arr j :
  aggregate_day day arr !! j
  = if decide (j < 24)%nat
    then match contribution j day with
         | Some hourStats => fmap (fold_hour hourStats) <$> arr !! j
         | None => arr !! j
         end
    else arr !! j.
Proof.
  unfold aggregate_day.
  apply (for_hours_lookup _
    (fun i o => match contribution i day with
                | Some hourStats => fmap (fold_hour hourStats) <$> o
                | None => o
                end)).
  - intros i a. unfold contribution.
    destruct (slot _ i) as [hs|]; [|done].
    destruct (_ =? 0); [done|]. apply call_at_lookup_eq.
  - intros i k a Hne. destruct (slot _ i) as [hs|]; [|done].
    destruct (_ =? 0); [done|]. by apply call_at_lookup_ne.
Qed.

Lemma fold_left_step {A B} (f : A -> B -> A) x l a :
  fold_left f (x :: l) a = fold_left f l (f a x).
Proof. reflexivity. Qed.

Lemma omap_step {A B} (f : A -> option B) x l :
  omap f (x :: l)
  = match f x with Some y => y :: omap f l | None => omap f l end.
Proof. reflexivity. Qed.

Lemma aggregate_days_lookup days arr j :
  (j < 24)%nat ->
  aggregate_days days arr !! j
  = fmap (fun agg => fold_left (fun agg hourStats => fold_hour hourStats agg)
                               (contributions j days) agg) <$> arr !! j.
Proof.
  intros Hj. revert arr. unfold aggregate_days, contributions.
  induction days as [|day days IH]; intros arr.
  - cbn. by destruct (arr !! j) as [[agg|]|].
  - rewrite fold_left_step, omap_step, IH.
    rewrite aggregate_day_lookup, decide_True by done.
    destruct (contribution j day) as [hs|]; [|done].
    by destruct (arr !! j) as [[agg|]|].
Qed.

Lemma final_hour_byHour hour st :
  byHour (final_hour hour st) = call_at finish hour (byHour st).
Proof.
  unfold final_hour, slot, call_at.
  destruct (byHour st !! hour) as [[agg|]|] eqn:Hat; cbn [mjoin option_join].
  - destruct (AggregatedHourStats.SampleDays agg =? 0) eqn:Hz.
    + cbn [byHour]. apply list_alter_ext; [|done].
      intros x Hx. rewrite Hat in Hx. injection Hx as <-. cbn.
      unfold finish. by rewrite Hz.
    + assert (alter (fmap summarize) hour (byHour st)
              = alter (fmap finish) hour (byHour st)) as Heq.
      { apply list_alter_ext; [|done].
        intros x Hx. rewrite Hat in Hx. injection Hx as <-. cbn.
        unfold finish. by rewrite Hz. }
      destruct (gtb _ _); cbn [byHour]; exact Heq.
  - symmetry. apply list_eq. intros k.
    destruct (decide (hour = k)) as [<-|Hne].
    + rewrite list_lookup_alter_eq, Hat. done.
    + by rewrite list_lookup_alter_ne.
  - symmetry. apply list_eq. intros k.
    destruct (decide (hour = k)) as [<-|Hne].
    + rewrite list_lookup_alter_eq, Hat. done.
    + by rewrite list_lookup_alter_ne.
Qed.

Lemma final_hours_byHour l st :
  byHour (fold_left (fun s i => final_hour i s) l st)
  = fold_left (fun a i => call_at finish i a) l (byHour st).
Proof.
  revert st. induction l as [|i l IH]; intros st; cbn [fold_left]; [done|].
  by rewrite IH, final_hour_byHour.
Qed.

Lemma final_hours_lookup st j :
  byHour (for_hours final_hour st) !! j
  = if decide (j < 24)%nat then fmap finish <$> byHour st !! j
    else byHour st !! j.
Proof.
  unfold for_hours. rewrite final_hours_byHour.
  apply (for_hours_call_at (fun _ => finish)).
Qed.

(** ** The accumulator of one hour *)

Lemma gather_snoc hour l h :
  gather hour (l ++ [h]) = fold_hour h (gather hour l).
Proof. unfold gather. by rewrite fold_left_app. Qed.

Lemma gather_Values hour l :
  AggregatedHourStats.Values (gather hour l) = HourlyStats.Mean <$> l.
Proof.
  induction l as [|h l IH] using rev_ind; [done|].
  rewrite gather_snoc, fmap_app. cbn. by rewrite IH.
Qed.

Lemma gather_defaults hour l :
  AggregatedHourStats.Hour (gather hour l) = Z.of_nat hour /\
  AggregatedHourStats.Average (gather hour l) = zero /\
  AggregatedHourStats.Median (gather hour l) = zero /\
  AggregatedHourStats.StdDev (gather hour l) = zero.
Proof.
  induction l as [|h l IH] using rev_ind; [done|].
  rewrite gather_snoc. exact IH.
Qed.

Lemma gather_SampleDays hour l :
  GoInt.is_slice l ->
  AggregatedHourStats.SampleDays (gather hour l) = GoInt.len l.
Proof.
  unfold GoInt.is_slice.
  induction l as [|h l IH] using rev_ind; [done|].
  rewrite gather_snoc, len_app. cbn [fold_hour AggregatedHourStats.SampleDays].
  intros Hlen. pose proof (len_nonneg l) as H0.
  change (GoInt.len [h]) with 1 in *.
  rewrite IH by lia. unfold GoInt.add. apply wrap_small.
  unfold GoInt.min_int, GoInt.max_int in *. lia.
Qed.

Lemma gather_extremes hour l :
  Forall wf_bucket l -> l <> [] ->
  is_minimum (AggregatedHourStats.Min (gather hour l)) (HourlyStats.Min <$> l) /\
  is_maximum (AggregatedHourStats.Max (gather hour l)) (HourlyStats.Max <$> l).
Proof.
  induction l as [|h l IH] using rev_ind; [done|].
  intros [Hl Hh]%Forall_app _. apply Forall_inv in Hh.
  rewrite gather_snoc, fmap_app, fmap_app.
  cbn [fold_hour AggregatedHourStats.Min AggregatedHourStats.Max fmap list_fmap].
  destruct l as [|h' l'].
  - destruct Hh as (_ & Hmin & Hmax).
    change (gather hour []) with (NewAggregatedHourStats (Z.of_nat hour)).
    cbn [NewAggregatedHourStats AggregatedHourStats.Min
         AggregatedHourStats.Max app fmap list_fmap].
    split; [by apply is_minimum_single | by apply is_maximum_single].
  - destruct IH as [Hmin Hmax]; [done..|].
    split; [by apply is_minimum_step | by apply is_maximum_step].
Qed.

(** ** The forward scan for the peak *)

Lemma ltb_eqb_r a b c : ltb a b = true -> eqb c b = true -> ltb a c = true.
Proof.
  unfold ltb, eqb, SFltb, SFeqb.
  float_cases a m1 e1; float_cases b m2 e2; float_cases c m3 e3;
    cbn; try discriminate; try reflexivity; order_cases.
Qed.

Lemma fold_left_single {A B} (f : A -> B -> A) x a : fold_left f [x] a = f a x.
Proof. reflexivity. Qed.

Lemma peak_scan_S avg n :
  peak_scan avg (S n) = peak_step avg (peak_scan avg n) n.
Proof. unfold peak_scan. by rewrite seq_S, fold_left_app. Qed.

Lemma peak_scan_nonneg avg n :
  snd (peak_scan avg n) = zero \/ ltb zero (snd (peak_scan avg n)) = true.
Proof.
  induction n as [|n IH]; [by left|].
  rewrite peak_scan_S. unfold peak_step, gtb.
  destruct (ltb (snd (peak_scan avg n)) (avg n)) eqn:Hlt; [|done].
  right. cbn [snd]. destruct IH as [IH|IH]; [by rewrite <- IH|].
  by eapply ltb_trans.
Qed.

Lemma peak_scan_upper avg n i :
  (i < n)%nat -> ltb (snd (peak_scan avg n)) (avg i) = false.
Proof.
  induction n as [|n IH]; [lia|]. intros Hi.
  rewrite peak_scan_S. unfold peak_step, gtb.
  destruct (ltb (snd (peak_scan avg n)) (avg n)) eqn:Hlt; cbn [snd].
  - destruct (decide (i = n)) as [->|Hne]; [apply ltb_irrefl|].
    destruct (ltb (avg n) (avg i)) eqn:Hni; [|done].
    rewrite <- (IH ltac:(lia)). symmetry. by eapply ltb_trans.
  - destruct (decide (i = n)) as [->|Hne]; [done|]. apply IH. lia.
Qed.

Lemma peak_scan_idle avg n :
  (forall i, (i < n)%nat -> gtb (avg i) zero = false) ->
  peak_scan avg n = (0, zero).
Proof.
  induction n as [|n IH]; [done|]. intros Hall.
  rewrite peak_scan_S, IH by (intros; apply Hall; lia).
  unfold peak_step. cbn [snd]. by rewrite Hall by lia.
Qed.

(** Either no hour was taken, or the peak is the first hour equal to the
    largest average. *)
Lemma peak_scan_first avg n :
  peak_scan avg n = (0, zero) \/
  exists p, (p < n)%nat /\ peak_scan avg n = (Z.of_nat p, avg p) /\
    gtb (avg p) zero = true /\
    forall k, (k < p)%nat ->
      eqb (avg k) (avg p) = false /\ ltb (avg p) (avg k) = false.
Proof.
  induction n as [|n IH]; [by left|].
  rewrite peak_scan_S. unfold peak_step at 1 2. unfold gtb at 1 2.
  destruct (ltb (snd (peak_scan avg n)) (avg n)) eqn:Hlt.
  - right. exists n. split; [lia|]. split; [done|]. split.
    + unfold gtb. destruct (peak_scan_nonneg avg n) as [Hz|Hz].
      * by rewrite <- Hz.
      * by eapply ltb_trans.
    + intros k Hk. pose proof (peak_scan_upper avg n k Hk) as Hup. split.
      * destruct (eqb (avg k) (avg n)) eqn:Heq; [|done].
        rewrite <- Hup. symmetry. by eapply ltb_eqb_r.
      * destruct (ltb (avg n) (avg k)) eqn:Hnk; [|done].
        rewrite <- Hup. symmetry. by eapply ltb_trans.
  - destruct IH as [IH|(p & Hp & IH)]; [by left|].
    right. exists p. split; [lia|]. done.
Qed.

(** ** The multi-day aggregator: the result *)

Lemma AggregateDays_cons first days :
  AggregateDays (first :: days)
  = Some {| MultiDayStats.StartDate := DailyStats.Date first;
            MultiDayStats.EndDate := DailyStats.Date (List.last (first :: days) first);
            MultiDayStats.DaysAnalyzed := GoInt.len (first :: days);
            MultiDayStats.ByHour := byHour (final_state (first :: days));
            MultiDayStats.TotalProduction := total_production (first :: days) zero;
            MultiDayStats.DailyAverage :=
              if 0 <? GoInt.len (first :: days)
              then div (total_production (first :: days) zero)
                       (of_int (GoInt.len (first :: days)))
              else zero;
            MultiDayStats.PeakHour := peakHour (final_state (first :: days));
            MultiDayStats.PeakPowerAvg := peakPowerAvg (final_state (first :: days)) |}.
Proof. reflexivity. Qed.

Lemma gathered_lookup days j :
  (j < 24)%nat ->
  aggregate_days days init_by_hour !! j
  = Some (Some (gather j (contributions j days))).
Proof.
  intros Hj. rewrite aggregate_days_lookup by done.
  pose proof (init_lookup NewAggregatedHourStats j) as Hinit.
  fold init_by_hour in Hinit.
  unfold slot in Hinit. rewrite decide_True in Hinit by done.
  destruct (init_by_hour !! j) as [[agg|]|]; try done. by injection Hinit as ->.
Qed.

Lemma final_state_slot days j :
  slot (byHour (final_state days)) j
  = if decide (j < 24)%nat
    then Some (finish (gather j (contributions j days)))
    else None.
Proof.
  unfold slot, final_state. rewrite final_hours_lookup. cbn [byHour].
  destruct (decide (j < 24)%nat) as [Hj|Hj].
  - by rewrite gathered_lookup.
  - rewrite lookup_ge_None_2; [done|].
    assert (forall l arr, length (fold_left (fun b d => aggregate_day d b) l arr)
                          = length arr) as Hlen.
    { induction l as [|d l IH]; intros arr; [done|].
      rewrite fold_left_step, IH. unfold aggregate_day.
      apply for_hours_length. intros i a.
      destruct (slot _ i); [|done]. destruct (_ =? 0); [done|].
      apply length_alter. }
    unfold aggregate_days, init_by_hour. rewrite Hlen, for_hours_length.
    + rewrite length_replicate. lia.
    + intros. apply length_insert.
Qed.

Lemma peak_scan_ext avg avg' n :
  (forall i, (i < n)%nat -> avg i = avg' i) ->
  peak_scan avg n = peak_scan avg' n.
Proof.
  induction n as [|n IH]; [done|]. intros Hext.
  rewrite !peak_scan_S, IH by (intros; apply Hext; lia).
  unfold peak_step. by rewrite Hext by lia.
Qed.

(** The loop over the hours keeps [maxAvg], [PeakHour] and
    [PeakPowerAvg] in step with the forward scan; an hour without
    contributing day is skipped, which the scan does by itself since its
    average 0 is not above the running maximum. *)
Lemma final_hours_peak B n :
  (n <= 24)%nat ->
  (forall i, (i < 24)%nat ->
     exists agg, B !! i = Some (Some agg) /\ AggregatedHourStats.Average agg = zero) ->
  let st := fold_left (fun s i => final_hour i s) (seq 0 n)
              {| maxAvg := zero; byHour := B; peakHour := 0; peakPowerAvg := zero |} in
  (peakHour st, peakPowerAvg st)
  = peak_scan (fun i => default zero
                 ((fun a => AggregatedHourStats.Average (finish a)) <$> mjoin (B !! i))) n /\
  maxAvg st = peakPowerAvg st.
Proof.
  intros Hn HB. cbv zeta. induction n as [|n IH]; [done|].
  rewrite seq_S, fold_left_app, fold_left_single, peak_scan_S. cbn [Nat.add].
  destruct IH as [IHpeak IHmax]; [lia|].
  set (avg := fun i => default zero
                ((fun a => AggregatedHourStats.Average (finish a)) <$> mjoin (B !! i))) in *.
  set (st := fold_left (fun s i => final_hour i s) (seq 0 n) _) in *.
  destruct (HB n ltac:(lia)) as (agg & Hagg & Havg0).
  assert (slot (byHour st) n = Some agg) as Hslot.
  { unfold slot, st. rewrite final_hours_byHour. cbn [byHour].
    rewrite (fold_call_at_lookup (fun _ => finish)).
    rewrite decide_False by lia. by rewrite Hagg. }
  assert (avg n = AggregatedHourStats.Average (finish agg)) as Havg.
  { unfold avg. by rewrite Hagg. }
  pose proof (peak_scan_nonneg avg n) as Hpos.
  rewrite <- IHpeak in Hpos |- *. cbn [snd] in Hpos.
  unfold final_hour, peak_step. rewrite Hslot, Havg. cbn [snd].
  unfold finish. destruct (AggregatedHourStats.SampleDays agg =? 0) eqn:Hz.
  - cbn [peakHour peakPowerAvg maxAvg clear_extremes AggregatedHourStats.Average].
    rewrite Havg0. unfold gtb.
    assert (ltb (peakPowerAvg st) zero = false) as ->; [|by split].
    destruct Hpos as [Hpos|Hpos]; [rewrite Hpos; apply ltb_irrefl|].
    by apply ltb_asym.
  - rewrite IHmax.
    destruct (gtb _ _); cbn [peakHour peakPowerAvg maxAvg]; by split.
Qed.

Lemma final_state_peak days :
  (peakHour (final_state days), peakPowerAvg (final_state days))
  = peak_scan (fun i => default zero
       (AggregatedHourStats.Average <$> slot (byHour (final_state days)) i)) 24.
Proof.
  unfold final_state at 1 2. unfold for_hours.
  destruct (final_hours_peak (aggregate_days days init_by_hour) 24) as [-> _].
  - lia.
  - intros i Hi. eexists. split; [by apply gathered_lookup|].
    apply gather_defaults.
  - apply peak_scan_ext. intros i Hi.
    rewrite final_state_slot, decide_True, gathered_lookup by done. done.
Qed.

Lemma AggregateDays_Some first days :
  exists r, AggregateDays (first :: days) = Some r.
Proof. eexists. apply AggregateDays_cons. Qed.

Lemma AggregateDays_slot days r j :
  AggregateDays days = Some r ->
  slot (MultiDayStats.ByHour r) j
  = if decide (j < 24)%nat
    then Some (finish (gather j (contributions j days)))
    else None.
Proof.
  destruct days as [|first days]; [done|].
  rewrite AggregateDays_cons. intros H. apply (inj Some) in H. subst r.
  apply final_state_slot.
Qed.

Lemma AggregateDays_peak days r :
  AggregateDays days = Some r ->
  (MultiDayStats.PeakHour r, MultiDayStats.PeakPowerAvg r)
  = peak_scan (average_at r) 24.
Proof.
  destruct days as [|first days]; [done|].
  rewrite AggregateDays_cons. intros H. apply (inj Some) in H. subst r.
  apply final_state_peak.
Qed.

Lemma AggregateDays_totals days r :
  AggregateDays days = Some r ->
  MultiDayStats.DaysAnalyzed r = GoInt.len days /\
  MultiDayStats.TotalProduction r = total_production days zero /\
  MultiDayStats.DailyAverage r
  = if 0 <? GoInt.len days
    then div (total_production days zero) (of_int (GoInt.len days))
    else zero.
Proof.
  destruct days as [|first days]; [done|].
  rewrite AggregateDays_cons. intros H. apply (inj Some) in H. subst r.
  repeat split.
Qed.

(** ** Peak hour *)

(** C7: for a non-empty list of days, the peak hour and the peak
    average are those of one forward scan over the hours 0 to 23 with a
    running maximum that starts at 0 and a strict comparison.  No hour's
    average is above the peak average; if no average is above 0 the peak
    hour and the peak average are 0; otherwise the peak hour has the
    peak average, which is above 0, and no earlier hour has an equal or
    larger average, so the lowest hour wins a tie. *)
Theorem peak_hour_is_first_largest (first : DailyStats.t) (days : list DailyStats.t) :
  exists r, AggregateDays (first :: days) = Some r /\
    (MultiDayStats.PeakHour r, MultiDayStats.PeakPowerAvg r)
      = peak_scan (average_at r) 24 /\
    (forall h, (h < 24)%nat ->
       ltb (MultiDayStats.PeakPowerAvg r) (average_at r h) = false) /\
    ((forall h, (h < 24)%nat -> gtb (average_at r h) zero = false) ->
     MultiDayStats.PeakHour r = 0 /\ MultiDayStats.PeakPowerAvg r = zero) /\
    ((exists h, (h < 24)%nat /\ gtb (average_at r h) zero = true) ->
     exists p, (p < 24)%nat /\
       MultiDayStats.PeakHour r = Z.of_nat p /\
       MultiDayStats.PeakPowerAvg r = average_at r p /\
       gtb (average_at r p) zero = true /\
       forall k, (k < p)%nat ->
         eqb (average_at r k) (average_at r p) = false /\
         ltb (average_at r p) (average_at r k) = false).
Proof.
  destruct (AggregateDays_Some first days) as [r Hr].
  exists r. split; [exact Hr|].
  pose proof (AggregateDays_peak _ _ Hr) as Hscan.
  generalize dependent (average_at r). intros avg Hscan. clear Hr.
  destruct r as [? ? ? ? ? ? hour best]. cbn [MultiDayStats.PeakHour
    MultiDayStats.PeakPowerAvg] in *.
  split; [exact Hscan|].
  assert (forall h, (h < 24)%nat -> ltb best (avg h) = false) as Hup.
  { intros h Hh. pose proof (peak_scan_upper avg 24 h Hh) as H.
    rewrite <- Hscan in H. exact H. }
  split; [exact Hup|]. split.
  - intros Hidle. rewrite (peak_scan_idle _ _ Hidle) in Hscan.
    injection Hscan as -> ->. by split.
  - intros (h & Hh & Hgt).
    destruct (peak_scan_first avg 24) as [Hnone|(p & Hp & Hsome & Hrest)].
    + rewrite Hnone in Hscan. injection Hscan as _ Hzero.
      specialize (Hup h Hh). rewrite Hzero in Hup.
      unfold gtb in Hgt. rewrite Hgt in Hup. discriminate.
    + rewrite Hsome in Hscan. injection Hscan as Hhour Havg.
      exists p. rewrite Hhour, Havg. by split.
Qed.

(** ** Contributing days *)

Lemma contributions_wf hour days :
  Forall wf_day days ->
  contributions hour days = contributing hour days /\
  Forall wf_bucket (contributions hour days).
Proof.
  unfold contributions, contributing.
  induction 1 as [|day days Hday _ [IHeq IHwf]]; [by split|].
  rewrite IHeq in IHwf. rewrite !omap_step, IHeq. unfold contribution.
  destruct (slot (DailyStats.Hours day) hour) as [h|] eqn:Hslot;
    cbn [mbind option_bind]; [|by split].
  pose proof (Hday hour h Hslot) as Hwf. pose proof Hwf as [Hpos _].
  destruct (HourlyStats.Samples h =? 0) eqn:Hz.
  - apply Z.eqb_eq in Hz. rewrite Hz. cbn. by split.
  - apply Z.eqb_neq in Hz. rewrite (proj2 (Z.ltb_lt _ _)) by lia.
    split; [done|]. by constructor.
Qed.

Lemma contributions_slice hour days :
  GoInt.is_slice days -> GoInt.is_slice (contributions hour days).
Proof.
  unfold GoInt.is_slice, GoInt.len, contributions. intros Hlen.
  assert (length (omap (contribution hour) days) <= length days)%nat; [|lia].
  clear Hlen. induction days as [|day days IH]; [done|].
  rewrite omap_step. destruct (contribution hour day); cbn [length]; lia.
Qed.

Lemma finish_Values agg :
  AggregatedHourStats.Values (finish agg) = AggregatedHourStats.Values agg /\
  AggregatedHourStats.SampleDays (finish agg) = AggregatedHourStats.SampleDays agg.
Proof. unfold finish. by destruct (_ =? 0). Qed.


(** ** Cross-day statistics of an hour *)

(** C6: for a non-empty list of well-formed days and an hour in 0..23,
    the days that contribute are those whose bucket for the hour has a
    sample count above 0; the aggregate counts them, keeps their means
    in day order, has the median and the deviation of these means, and,
    when there is one, the minimum of their minimums, the maximum of
    their maximums and the average of their means; when there is none
    the minimum, the maximum and the average are 0. *)
Theorem hour_aggregate_over_contributing_days
    (first : DailyStats.t) (days : list DailyStats.t) (hour : nat) :
  GoInt.is_slice (first :: days) ->
  Forall wf_day (first :: days) ->
  (hour < 24)%nat ->
  exists r agg,
    AggregateDays (first :: days) = Some r /\
    slot (MultiDayStats.ByHour r) hour = Some agg /\
    let contrib := contributing hour (first :: days) in
    let means := HourlyStats.Mean <$> contrib in
    AggregatedHourStats.SampleDays agg = GoInt.len contrib /\
    AggregatedHourStats.Values agg = means /\
    AggregatedHourStats.Median agg = CalculateMedian means /\
    AggregatedHourStats.StdDev agg
      = CalculateStdDev means (AggregatedHourStats.Average agg) /\
    (contrib = [] ->
     AggregatedHourStats.Min agg = zero /\
     AggregatedHourStats.Max agg = zero /\
     AggregatedHourStats.Average agg = zero) /\
    (contrib <> [] ->
     is_minimum (AggregatedHourStats.Min agg) (HourlyStats.Min <$> contrib) /\
     is_maximum (AggregatedHourStats.Max agg) (HourlyStats.Max <$> contrib) /\
     AggregatedHourStats.Average agg
       = div (fsum means) (of_int (GoInt.len contrib))).
Proof.
  intros Hlen Hwf Hhour.
  destruct (AggregateDays_Some first days) as [r Hr].
  exists r, (finish (gather hour (contributions hour (first :: days)))).
  split; [exact Hr|].
  split; [by rewrite (AggregateDays_slot _ _ hour Hr), decide_True|].
  destruct (contributions_wf hour _ Hwf) as [<- Hbuckets].
  pose proof (contributions_slice hour _ Hlen) as Hslice.
  generalize dependent (contributions hour (first :: days)).
  intros l Hbuckets Hslice. cbv zeta.
  pose proof (gather_SampleDays hour l Hslice) as Hcount.
  pose proof (gather_Values hour l) as Hvalues.
  pose proof (gather_defaults hour l) as (_ & Havg & Hmed & Hdev).
  unfold finish. rewrite Hcount.
  destruct l as [|h l].
  - change (GoInt.len (@nil HourlyStats.t)) with 0.
    cbn. repeat split; done.
  - assert ((GoInt.len (h :: l) =? 0) = false) as ->.
    { apply Z.eqb_neq. unfold GoInt.len. cbn [length]. lia. }
    destruct (gather_extremes hour (h :: l)) as [Hmin Hmax]; [done..|].
    cbn [summarize AggregatedHourStats.SampleDays AggregatedHourStats.Values
         AggregatedHourStats.Median AggregatedHourStats.StdDev
         AggregatedHourStats.Min AggregatedHourStats.Max
         AggregatedHourStats.Average].
    rewrite Hvalues, Hcount.
    assert (GoInt.len (HourlyStats.Mean <$> h :: l) = GoInt.len (h :: l)) as ->.
    { unfold GoInt.len. by rewrite length_fmap. }
    destruct Hmin, Hmax. repeat split; done.
Qed.

Lemma day_of_wf date readings :
  GoInt.is_slice readings -> wf_day (day_of date readings).
Proof.
  intros Hlen. unfold day_of.
  destruct (AggregateToHourly _ _) as [ds|] eqn:Hds; cbn [default].
  - eapply AggregateToHourly_wf; [|exact Hds].
    unfold GoInt.is_slice, GoInt.len in *. by rewrite length_fmap.
  - intros hour h. unfold slot. cbn [DailyStats.Hours].
    rewrite lookup_nil. discriminate.
Defined.

(** ** The standard deviation *)


Lemma CalculateStdDev_short values mean :
  GoInt.len values < 2 -> CalculateStdDev values mean = zero.
Proof.
  intros Hlen%Z.ltb_lt. unfold CalculateStdDev. by rewrite Hlen.
Qed.




(** The value 2.138 of the specification, to three decimals. *)
Lemma CalculateStdDev_example :
  let s := CalculateStdDev (of_int <$> [2; 4; 4; 4; 5; 5; 7; 9]) (of_int 5) in
  ltb (div (of_int 2138) (of_int 1000)) s = true /\
  ltb s (div (of_int 2139) (of_int 1000)) = true.
Proof. vm_compute. split; reflexivity. Qed.

(** ** Energy *)

Lemma fold_optional_sum {A B} (f : A -> option B) (g : B -> float64) l acc :
  fold_left (fun acc x => match f x with
                          | None => acc
                          | Some y => add acc (g y)
                          end) l acc
  = fold_left add (g <$> omap f l) acc.
Proof.
  revert acc. induction l as [|x l IH]; intros acc; [done|].
  rewrite fold_left_step, omap_step, IH. by destruct (f x).
Qed.

Lemma daily_energy_kwh day : daily_energy day = energy_kwh day.
Proof.
  unfold daily_energy, energy_kwh, buckets, for_hours, fsum.
  apply (fold_optional_sum (slot (DailyStats.Hours day))
           (fun h => div (HourlyStats.Mean h) (of_int 1000))).
Qed.

Lemma total_production_fsum days acc :
  total_production days acc = fold_left add (energy_kwh <$> days) acc.
Proof.
  unfold total_production. revert acc.
  induction days as [|day days IH]; intros acc; [done|].
  by rewrite fmap_cons, !fold_left_step, IH, daily_energy_kwh.
Qed.

(** C8: for a non-empty list of days the total production is the sum
    over the days of the day's energy, itself the sum over the day's
    hours of the hourly mean in watts over 1000; it is computed from the
    days alone; the daily average is the total over the number of days,
    which is above 0. *)
Theorem total_production_sums_daily_means
    (first : DailyStats.t) (days : list DailyStats.t) :
  exists r, AggregateDays (first :: days) = Some r /\
    MultiDayStats.DaysAnalyzed r = GoInt.len (first :: days) /\
    0 < MultiDayStats.DaysAnalyzed r /\
    MultiDayStats.TotalProduction r = fsum (energy_kwh <$> first :: days) /\
    MultiDayStats.DailyAverage r
    = div (MultiDayStats.TotalProduction r)
          (of_int (MultiDayStats.DaysAnalyzed r)).
Proof.
  destruct (AggregateDays_Some first days) as [r Hr].
  exists r. split; [exact Hr|].
  destruct (AggregateDays_totals _ _ Hr) as (Hn & Htotal & Havg).
  assert (0 < GoInt.len (first :: days)) as Hpos.
  { unfold GoInt.len. cbn [length]. lia. }
  rewrite Havg, Hn, Htotal, total_production_fsum.
  rewrite (proj2 (Z.ltb_lt _ _) Hpos). by repeat split.
Qed.

(** The three days with one reading of 4000 W, 4500 W and 4200 W at
    noon: hour 12 has three contributing days, it is the peak hour, and
    the total is 12.7 kWh, three times the daily average; the total is
    not the sum of the cross-day hourly averages. *)
Lemma single_days_scenario :
  exists r agg,
    AggregateDays single_days = Some r /\
    slot (MultiDayStats.ByHour r) 12 = Some agg /\
    MultiDayStats.DaysAnalyzed r = 3 /\
    AggregatedHourStats.SampleDays agg = 3 /\
    AggregatedHourStats.Average agg = div (of_int 12700) (of_int 3) /\
    MultiDayStats.PeakHour r = 12 /\
    MultiDayStats.TotalProduction r = div (of_int 127) (of_int 10) /\
    MultiDayStats.DailyAverage r = div (div (of_int 127) (of_int 10)) (of_int 3) /\
    MultiDayStats.TotalProduction r
    <> fsum ((fun h => div (average_at r h) (of_int 1000)) <$> seq 0 24).
Proof.
  do 2 eexists.
  split; [vm_compute; reflexivity|].
  split; [vm_compute; reflexivity|].
  repeat split; try (vm_compute; reflexivity).
  vm_compute. discriminate.
Qed.

(** ** Rows *)

Lemma fold_optional_rows {X A B} (f : X -> option A) (g : X -> A -> B) l acc :
  fold_left (fun acc x => match f x with
                          | None => acc
                          | Some y => acc ++ [g x y]
                          end) l acc
  = acc ++ omap (fun x => g x <$> f x) l.
Proof.
  revert acc. induction l as [|x l IH]; intros acc.
  - by rewrite app_nil_r.
  - rewrite fold_left_step, omap_step, IH.
    destruct (f x); cbn [fmap option_fmap option_map]; [|done].
    by rewrite <- app_assoc.
Qed.

Lemma for_hours_rows day acc :
  for_hours
    (fun hour rows =>
       match slot (DailyStats.Hours day) hour with
       | None => rows
       | Some h => rows ++ [hourly_row day hour h]
       end)
    acc
  = acc ++ day_rows day.
Proof.
  unfold for_hours, day_rows.
  apply (fold_optional_rows (slot (DailyStats.Hours day)) (hourly_row day)).
Qed.

Lemma GetHourlyRows_bind_acc days acc :
  fold_left
    (fun rows day =>
       for_hours
         (fun hour rows =>
            match slot (DailyStats.Hours day) hour with
            | None => rows
            | Some h => rows ++ [hourly_row day hour h]
            end)
         rows)
    days acc
  = acc ++ days ≫= day_rows.
Proof.
  revert acc. induction days as [|day days IH]; intros acc.
  - by rewrite app_nil_r.
  - rewrite fold_left_step, IH, for_hours_rows, bind_cons.
    symmetry. apply app_assoc.
Qed.

Lemma GetHourlyRows_bind days : GetHourlyRows days = days ≫= day_rows.
Proof. unfold GetHourlyRows. by rewrite GetHourlyRows_bind_acc. Qed.

Lemma elem_of_day_rows day row :
  row ∈ day_rows day <->
  exists hour h, (hour < 24)%nat /\
    slot (DailyStats.Hours day) hour = Some h /\ row = hourly_row day hour h.
Proof.
  unfold day_rows. rewrite list_elem_of_omap. split.
  - intros (hour & Hin%elem_of_seq & Hrow).
    destruct (slot _ hour) as [h|] eqn:Hslot; [|done]. injection Hrow as <-.
    exists hour, h. split; [lia|done].
  - intros (hour & h & Hlt & Hslot & ->). exists hour.
    split; [apply elem_of_seq; lia|]. by rewrite Hslot.
Qed.

Lemma day_rows_full day :
  (forall hour, (hour < 24)%nat -> is_Some (slot (DailyStats.Hours day) hour)) ->
  length (day_rows day) = 24%nat.
Proof.
  intros Hall. unfold day_rows.
  assert (forall l : list nat, (forall x, x ∈ l -> (x < 24)%nat) ->
            length (omap (fun hour => hourly_row day hour
                                        <$> slot (DailyStats.Hours day) hour) l)
            = length l) as Hlen.
  { induction l as [|x l IH]; intros Hl; [done|].
    rewrite omap_step. destruct (Hall x) as [h ->]; [apply Hl; left|].
    cbn. f_equal. apply IH. intros y Hy. apply Hl. by right. }
  rewrite Hlen; [done|]. intros x Hx%elem_of_seq. lia.
Qed.

(** C2 fails as stated: a day on which no hour has a sample still gets
    its rows, here the row of hour 0 with a sample count of 0. *)
Lemma rows_for_recorded_hours_counterexample :
  ~ rows_for_recorded_hours [idle_day].
Proof.
  intros Hclaim.
  destruct (Hclaim (hourly_row idle_day 0 (Finalize (NewHourlyStats 0))))
    as [Hrow _].
  destruct Hrow as (day & hour & h & _ & _ & _ & Hpos & Heq).
  - rewrite GetHourlyRows_bind. vm_compute. left.
  - apply (f_equal HourlyRow.Samples) in Heq. cbn in Heq. lia.
Qed.

(** C2, as the code has it: the rows are, day after day and hour after
    hour, one row for each hour whose bucket is there, whatever its
    sample count, with the day's date, the hour and the bucket's
    minimum, maximum, mean and sample count; a day with its 24 buckets
    gets 24 rows. *)
Theorem GetHourlyRows_one_row_per_bucket (days : list DailyStats.t) :
  GetHourlyRows days = days ≫= day_rows /\
  (forall row,
     row ∈ GetHourlyRows days <->
     exists day hour h,
       day ∈ days /\ (hour < 24)%nat /\
       slot (DailyStats.Hours day) hour = Some h /\
       row = {| HourlyRow.Date := DailyStats.Date day;
                HourlyRow.Hour := Z.of_nat hour;
                HourlyRow.Min := HourlyStats.Min h;
                HourlyRow.Max := HourlyStats.Max h;
                HourlyRow.Avg := HourlyStats.Mean h;
                HourlyRow.Samples := HourlyStats.Samples h |}) /\
  ((forall day, day ∈ days -> forall hour, (hour < 24)%nat ->
      is_Some (slot (DailyStats.Hours day) hour)) ->
   length (GetHourlyRows days) = (24 * length days)%nat).
Proof.
  split; [apply GetHourlyRows_bind|]. split.
  - intros row. rewrite GetHourlyRows_bind, list_elem_of_bind. split.
    + intros (day & (hour & h & Hlt & Hslot & ->)%elem_of_day_rows & Hday).
      by exists day, hour, h.
    + intros (day & hour & h & Hday & Hlt & Hslot & ->).
      exists day. split; [|done]. apply elem_of_day_rows. by exists hour, h.
  - rewrite GetHourlyRows_bind. induction days as [|day days IH]; intros Hall.
    + done.
    + rewrite bind_cons, length_app, IH, day_rows_full.
      * cbn [length]. lia.
      * intros hour Hlt. apply Hall; [left|done].
      * intros d Hd. apply Hall. by right.
Qed.

(** ** The median leaves its argument alone *)

Lemma load_Some (σ : Store.store) a l :
  σ !! a = Some l -> Store.load a σ = Some (l, σ).
Proof. unfold Store.load. by intros ->. Qed.

Lemma write_Some (σ : Store.store) a l0 l :
  σ !! a = Some l0 -> Store.write a l σ = Some (tt, <[a := l]> σ).
Proof. unfold Store.write. by intros ->. Qed.

Lemma bind_Some {A B} (m : Store.M A) (k : A -> Store.M B) σ x σ' :
  m σ = Some (x, σ') -> Store.bind m k σ = k x σ'.
Proof. unfold Store.bind. by intros ->. Qed.

Lemma fresh_not_allocated (σ : Store.store) a l :
  σ !! a = Some l -> fresh (dom σ) <> a.
Proof.
  intros Ha Heq. apply (is_fresh (dom σ)). rewrite Heq.
  apply elem_of_dom. by eexists.
Qed.

Lemma copy_into_fresh (σ : Store.store) dst src vs :
  dst <> src ->
  σ !! dst = Some (replicate (length vs) zero) ->
  σ !! src = Some vs ->
  Store.copy dst src σ = Some (tt, <[dst := vs]> σ).
Proof.
  intros Hne Hdst Hsrc. unfold Store.copy.
  rewrite (bind_Some _ _ _ _ _ (load_Some _ _ _ Hdst)).
  rewrite (bind_Some _ _ _ _ _ (load_Some _ _ _ Hsrc)).
  rewrite (write_Some _ _ _ _ Hdst). rewrite length_replicate.
  rewrite take_ge, drop_ge by (rewrite ?length_replicate; lia).
  by rewrite app_nil_r.
Qed.

Lemma sort_in_place (σ : Store.store) a l :
  σ !! a = Some l ->
  Store.sort_Float64s a σ = Some (tt, <[a := Float64s l]> σ).
Proof.
  intros Ha. unfold Store.sort_Float64s.
  rewrite (bind_Some _ _ _ _ _ (load_Some _ _ _ Ha)).
  by apply write_Some with l.
Qed.

(** The call returns what the pure function computes from the contents
    of the argument, and changes no slice that was there before. *)
Lemma CalculateMedian_frame (σ : Store.store) values vs :
  σ !! values = Some vs ->
  exists σ',
    Store.CalculateMedian values σ = Some (CalculateMedian vs, σ') /\
    forall a l, σ !! a = Some l -> σ' !! a = Some l.
Proof.
  intros Hvs. unfold Store.CalculateMedian, CalculateMedian.
  rewrite (bind_Some _ _ _ _ _ (load_Some _ _ _ Hvs)).
  destruct (GoInt.len vs =? 0); [by exists σ|].
  set (a := fresh (dom σ)).
  assert (a <> values) as Hne by (by eapply fresh_not_allocated).
  set (σ1 := <[a := replicate (length vs) zero]> σ).
  set (σ2 := <[a := vs]> σ1).
  set (σ3 := <[a := Float64s vs]> σ2).
  exists σ3. split.
  - rewrite (bind_Some _ _ σ a σ1) by done.
    rewrite (bind_Some _ _ σ1 tt σ2).
    2:{ apply copy_into_fresh; [done|apply lookup_insert_eq|].
        unfold σ1. by rewrite lookup_insert_ne. }
    rewrite (bind_Some _ _ σ2 tt σ3).
    2:{ apply sort_in_place. apply lookup_insert_eq. }
    rewrite (bind_Some _ _ σ3 (Float64s vs) σ3).
    2:{ apply load_Some. apply lookup_insert_eq. }
    cbv zeta. by destruct (_ =? 0).
  - intros b l Hb.
    assert (a <> b) as Hab by (by eapply fresh_not_allocated).
    unfold σ3, σ2, σ1. by rewrite !lookup_insert_ne.
Qed.

(** C10: [CalculateMedian] sorts a copy: the slice it is given holds the
    same values in the same order after the call, as does every other
    slice; so the means an aggregated hour holds stay in day order, the
    order in which the contributing days were folded in. *)
Theorem CalculateMedian_preserves_argument
    (σ : Store.store) (values : Store.addr) (vs : list float64) :
  σ !! values = Some vs ->
  (exists σ',
     Store.CalculateMedian values σ = Some (CalculateMedian vs, σ') /\
     σ' !! values = Some vs /\
     forall a l, σ !! a = Some l -> σ' !! a = Some l) /\
  (forall days r hour agg,
     AggregateDays days = Some r ->
     slot (MultiDayStats.ByHour r) hour = Some agg ->
     AggregatedHourStats.Values agg
     = HourlyStats.Mean <$> contributions hour days).
Proof.
  intros Hvs. split.
  - destruct (CalculateMedian_frame σ values vs Hvs) as (σ' & Hrun & Hframe).
    exists σ'. split; [exact Hrun|]. split; [by apply Hframe | exact Hframe].
  - intros days r hour agg Hr Hslot.
    rewrite (AggregateDays_slot _ _ hour Hr) in Hslot.
    destruct (decide (hour < 24)%nat); [|done].
    injection Hslot as <-.
    rewrite (proj1 (finish_Values _)). apply gather_Values.
Qed.

(** ** The repository's tests, replayed *)

(** [TestHourlyStats]: the values 100 to 500 in hour 12. *)
Lemma hourly_stats_scenario :
  let h := Finalize (accumulate 12 (of_int <$> [100; 200; 300; 400; 500])) in
  HourlyStats.Hour h = 12 /\ HourlyStats.Samples h = 5 /\
  HourlyStats.Min h = of_int 100 /\ HourlyStats.Max h = of_int 500 /\
  HourlyStats.Mean h = of_int 300 /\ HourlyStats.Sum h = of_int 1500 /\
  HourlyStats.StdDev h <> zero.
Proof. vm_compute. repeat split; try reflexivity. discriminate. Qed.

(** [TestAggregateToHourly]: four readings in hour 6, two in hours 7 and
    12, none in hour 0. *)
Lemma hour_partition_scenario :
  DailyStats.Date test_day = "2025-02-03" /\
  (HourlyStats.Samples <$> slot (DailyStats.Hours test_day) 6) = Some 4 /\
  (HourlyStats.Min <$> slot (DailyStats.Hours test_day) 6) = Some zero /\
  (HourlyStats.Max <$> slot (DailyStats.Hours test_day) 6) = Some (of_int 300) /\
  (HourlyStats.Samples <$> slot (DailyStats.Hours test_day) 7) = Some 2 /\
  (HourlyStats.Samples <$> slot (DailyStats.Hours test_day) 12) = Some 2 /\
  (HourlyStats.Samples <$> slot (DailyStats.Hours test_day) 0) = Some 0.
Proof. vm_compute. repeat split; reflexivity. Qed.

(** [TestGetHourlyRows]: a day with readings in two hours only has 24
    rows. *)
Lemma hourly_rows_scenario :
  length (GetHourlyRows [day_of "2025-02-03" [(6, 100); (6, 200); (12, 4500)]])
  = 24%nat.
Proof. vm_compute. reflexivity. Qed.

End Statistics.

(** ** Examples *)

Lemma CalculateMedian_sorts_and_takes_middle_witness :
  CalculateMedian (of_int <$> [5; 2; 8; 1; 9])
  = nth 2 (Float64s (of_int <$> [5; 2; 8; 1; 9])) zero.
Proof.
  destruct (CalculateMedian_sorts_and_takes_middle (of_int <$> [5; 2; 8; 1; 9]))
    as (_ & _ & _ & H & _).
  - exact insertionSort_sorts.
  - unfold GoInt.is_slice. vm_compute. discriminate.
  - destruct H as (_ & Hodd & _); [discriminate|].
    apply Hodd. exists 2%nat. reflexivity.
Defined.

Lemma no_result_iff_empty_witness :
  exists ds,
    AggregateToHourly (fun d : string => d)
      [ParsedPowerData.Build "2025-02-03" "24:00" (of_int 100) 24 0] = Some ds /\
    slot (DailyStats.Hours ds) 12 = Some (Finalize (NewHourlyStats 12)).
Proof.
  destruct (no_result_iff_empty (fun d : string => d)
              [ParsedPowerData.Build "2025-02-03" "24:00" (of_int 100) 24 0])
    as (_ & H & _).
  destruct H as (ds & Hds & Hh); [discriminate | repeat constructor |].
  exists ds. split; [exact Hds|]. apply (Hh 12%nat). lia.
Defined.

Lemma hour_aggregate_over_contributing_days_witness :
  exists r agg,
    AggregateDays noon_days = Some r /\
    slot (MultiDayStats.ByHour r) 12 = Some agg /\
    AggregatedHourStats.SampleDays agg = 3 /\
    is_minimum (AggregatedHourStats.Min agg) (of_int <$> [4000; 4500; 4100]) /\
    is_maximum (AggregatedHourStats.Max agg) (of_int <$> [4200; 4700; 4300]).
Proof.
  destruct (hour_aggregate_over_contributing_days
              (day_of "2025-02-01" [(12, 4000); (12, 4200)])
              [day_of "2025-02-02" [(12, 4500); (12, 4700)];
               day_of "2025-02-03" [(12, 4100); (12, 4300)]] 12)
    as (r & agg & Hr & Hslot & Hcount & _ & _ & _ & _ & Hsome).
  - unfold GoInt.is_slice. vm_compute. discriminate.
  - do 3 (constructor;
          [apply day_of_wf; unfold GoInt.is_slice; vm_compute; discriminate|]).
    constructor.
  - lia.
  - exists r, agg. split; [exact Hr|]. split; [exact Hslot|].
    split; [rewrite Hcount; vm_compute; reflexivity|].
    destruct Hsome as (Hmin & Hmax & _); [vm_compute; discriminate|].
    split; [exact Hmin | exact Hmax].
Defined.

Lemma peak_hour_is_first_largest_witness :
  exists r, AggregateDays single_days = Some r /\
    MultiDayStats.PeakHour r = 12 /\
    MultiDayStats.PeakPowerAvg r = average_at r 12.
Proof.
  destruct (peak_hour_is_first_largest
              (day_of "2025-02-01" [(12, 4000)])
              [day_of "2025-02-02" [(12, 4500)];
               day_of "2025-02-03" [(12, 4200)]])
    as (r & Hr & _ & _ & _ & Hpeak).
  exists r. split; [exact Hr|].
  assert (AggregateDays single_days = Some r) as Hr' by exact Hr.
  vm_compute in Hr'. injection Hr' as <-.
  destruct Hpeak as (p & Hp & Hhour & Havg & Hgt & Hfirst).
  - exists 12%nat. split; [lia|]. vm_compute. reflexivity.
  - vm_compute. split; reflexivity.
Defined.


Lemma GetHourlyRows_one_row_per_bucket_witness :
  length (GetHourlyRows [idle_day]) = 24%nat.
Proof.
  destruct (GetHourlyRows_one_row_per_bucket [idle_day]) as (_ & _ & Hlen).
  rewrite Hlen; [reflexivity|].
  intros day ->%list_elem_of_singleton hour Hlt.
  do 24 (destruct hour as [|hour]; [by eexists|]). lia.
Defined.

Lemma CalculateMedian_preserves_argument_witness :
  exists σ',
    Store.CalculateMedian 1%positive {[ 1%positive := of_int <$> [5; 2; 8; 1; 9] ]}
    = Some (of_int 5, σ') /\
    σ' !! 1%positive = Some (of_int <$> [5; 2; 8; 1; 9]).
Proof.
  destruct (CalculateMedian_preserves_argument
              {[ 1%positive := of_int <$> [5; 2; 8; 1; 9] ]} 1%positive
              (of_int <$> [5; 2; 8; 1; 9]))
    as [(σ' & Hrun & Hsame & _) _].
  - apply lookup_singleton_eq.
  - exists σ'. split; [|exact Hsame].
    rewrite Hrun. do 2 f_equal.
Defined.

(** * Further properties of [internal/stats] *)

Section FurtherStatistics.

Context {library : Library}.

(** ** The hours of a day partition its samples *)

Lemma Finalize_keeps h :
  HourlyStats.Hour (Finalize h) = HourlyStats.Hour h /\
  HourlyStats.Sum (Finalize h) = HourlyStats.Sum h /\
  HourlyStats.Values (Finalize h) = HourlyStats.Values h.
Proof. unfold Finalize. by destruct (_ =? 0). Qed.

Lemma accumulate_Hour hour values :
  HourlyStats.Hour (accumulate hour values) = hour.
Proof.
  induction values as [|v values IH] using rev_ind; [done|].
  rewrite accumulate_snoc. exact IH.
Qed.

Lemma omap_total {A B} (f : A -> option B) (g : A -> B) (l : list A) :
  (forall x, x ∈ l -> f x = Some (g x)) -> omap f l = g <$> l.
Proof.
  induction l as [|x l IH]; intros Hall; [done|].
  rewrite omap_step, (Hall x) by left. rewrite fmap_cons. f_equal.
  apply IH. intros y Hy. apply Hall. by right.
Qed.

Lemma list_sum_cons x l : list_sum (x :: l) = (x + list_sum l)%nat.
Proof. reflexivity. Qed.

Lemma list_sum_fmap_add {A} (a b : A -> nat) (l : list A) :
  list_sum ((fun x => a x + b x)%nat <$> l)
  = (list_sum (a <$> l) + list_sum (b <$> l))%nat.
Proof.
  induction l as [|x l IH]; [done|].
  rewrite !fmap_cons, !list_sum_cons, IH. lia.
Qed.

Lemma list_sum_indicator (P : nat -> Prop) `{!forall j, Decision (P j)} k n :
  (forall j, P j <-> j = k) ->
  list_sum ((fun j => if decide (P j) then 1 else 0)%nat <$> seq 0 n)
  = if decide (k < n)%nat then 1%nat else 0%nat.
Proof.
  intros HP. induction n as [|n IH]; [done|].
  rewrite seq_S, fmap_app, list_sum_app, IH.
  rewrite fmap_cons, list_sum_cons. cbn [Nat.add fmap list_fmap list_sum fold_right].
  destruct (decide (P n)) as [Hn|Hn].
  - apply HP in Hn as ->. rewrite decide_False, decide_True by lia. done.
  - assert (n <> k) by (intros ->; by apply Hn, HP).
    destruct (decide (k < n)%nat).
    + rewrite decide_True by lia. done.
    + rewrite decide_False by lia. done.
Qed.

Lemma list_sum_zero {A} (l : list A) : list_sum ((fun _ => 0%nat) <$> l) = 0%nat.
Proof.
  induction l as [|x l IH]; [done|]. by rewrite fmap_cons, list_sum_cons, IH.
Qed.

Section Partition.

Context {GoTime : Type} (Format : GoTime -> string).

Lemma samples_of_cons j (p : ParsedPowerData.t GoTime) data :
  length (samples_of j (p :: data))
  = (length (samples_of j data)
     + if decide (in_day p = true /\ Z.to_nat (ParsedPowerData.Hour p) = j)
       then 1 else 0)%nat.
Proof.
  unfold samples_of. rewrite filter_cons.
  destruct (decide _); cbn [fmap list_fmap length]; lia.
Qed.

Lemma in_day_hour (p : ParsedPowerData.t GoTime) :
  in_day p = true -> (Z.to_nat (ParsedPowerData.Hour p) < 24)%nat.
Proof. unfold in_day. intros [?%Z.leb_le ?%Z.ltb_lt]%andb_true_iff. lia. Qed.

(** Every sample with an hour in 0..23 is in the list of exactly one
    hour. *)
Lemma samples_of_total (data : list (ParsedPowerData.t GoTime)) :
  list_sum ((fun j => length (samples_of j data)) <$> seq 0 24)
  = length (filter (fun p => in_day p = true) data).
Proof.
  induction data as [|p data IH].
  - unfold samples_of. cbn [filter list_filter fmap list_fmap length].
    apply list_sum_zero.
  - rewrite (list_fmap_ext _ (fun j => length (samples_of j data)
        + if decide (in_day p = true /\ Z.to_nat (ParsedPowerData.Hour p) = j)
          then 1 else 0)%nat (seq 0 24))
      by (intros; apply samples_of_cons).
    rewrite list_sum_fmap_add, IH, filter_cons.
    destruct (decide (in_day p = true)) as [Hp|Hp].
    + rewrite (list_sum_indicator _ (Z.to_nat (ParsedPowerData.Hour p)))
        by (intros j; split; [by intros [_ <-] | by intros ->]).
      rewrite decide_True by by apply in_day_hour. cbn [length]. lia.
    + rewrite (list_fmap_ext _ (fun _ => 0%nat) (seq 0 24)).
      * rewrite list_sum_zero. lia.
      * intros i j _. rewrite decide_False; [done|]. by intros [? _].
Qed.

(** X1: the day the hourly aggregator returns has its 24 buckets, and
    nothing beyond; the bucket of hour [j] carries the index [j], holds
    the powers of the samples of that hour in input order, their number
    and their sum; and the buckets together hold every sample with an
    hour in 0..23 exactly once. *)
Theorem AggregateToHourly_partitions
    (data : list (ParsedPowerData.t GoTime)) (ds : DailyStats.t) :
  GoInt.is_slice data ->
  AggregateToHourly Format data = Some ds ->
  (forall j, (j < 24)%nat ->
     exists h, slot (DailyStats.Hours ds) j = Some h /\
       HourlyStats.Hour h = Z.of_nat j /\
       HourlyStats.Values h = samples_of j data /\
       HourlyStats.Samples h = GoInt.len (HourlyStats.Values h) /\
       HourlyStats.Sum h = fsum (HourlyStats.Values h)) /\
  (forall j, (24 <= j)%nat -> slot (DailyStats.Hours ds) j = None) /\
  list_sum ((fun h => length (HourlyStats.Values h)) <$> buckets ds)
  = length (filter (fun p => in_day p = true) data).
Proof.
  intros Hlen Hds.
  pose proof (AggregateToHourly_hour Format data ds) as Hslot.
  split; [|split].
  - intros j Hj. eexists. rewrite (Hslot j Hds), decide_True by done.
    split; [reflexivity|].
    destruct (Finalize_keeps (accumulate (Z.of_nat j) (samples_of j data)))
      as (-> & -> & ->).
    rewrite Finalize_Samples, accumulate_Hour, accumulate_Values,
      accumulate_Sum, accumulate_Samples by by apply samples_of_slice.
    done.
  - intros j Hj. rewrite (Hslot j Hds), decide_False by lia. done.
  - unfold buckets.
    rewrite (omap_total _
      (fun j => Finalize (accumulate (Z.of_nat j) (samples_of j data)))).
    + rewrite <- list_fmap_compose, <- samples_of_total. f_equal.
      apply list_fmap_ext. intros i j _. cbn [compose].
      rewrite (proj2 (proj2 (Finalize_keeps _))). by rewrite accumulate_Values.
    + intros j Hj%elem_of_seq. rewrite (Hslot j Hds), decide_True by lia. done.
Qed.

End Partition.

(** ** What a bucket of the hourly aggregator can hold *)

Lemma below_max_not_nan x :
  ltb x MaxFloat64 = true \/ x = MaxFloat64 ->
  is_nan x = false /\ ltb MaxFloat64 x = false.
Proof.
  intros [Hlt | ->]; [|by vm_compute].
  split; [by destruct x|by apply ltb_asym].
Qed.

Lemma above_min_not_nan x :
  gtb x (opp MaxFloat64) = true \/ x = opp MaxFloat64 ->
  is_nan x = false /\ ltb x (opp MaxFloat64) = false.
Proof.
  unfold gtb. intros [Hlt | ->]; [|by vm_compute].
  split; [by destruct x as [[]|[]| |[] m e]|by apply ltb_asym].
Qed.

(** X2: whatever the readings are, NaN and infinities included, every
    bucket of the day the hourly aggregator returns has a count that is
    not negative, a minimum that is neither NaN nor above [MaxFloat64]
    and a maximum that is neither NaN nor below [-MaxFloat64]; a bucket
    without samples has minimum, maximum, mean and deviation 0. *)
Theorem hourly_buckets_within_sentinels {GoTime : Type}
    (Format : GoTime -> string) (data : list (ParsedPowerData.t GoTime))
    (ds : DailyStats.t) (j : nat) (h : HourlyStats.t) :
  GoInt.is_slice data ->
  AggregateToHourly Format data = Some ds ->
  slot (DailyStats.Hours ds) j = Some h ->
  0 <= HourlyStats.Samples h /\
  is_nan (HourlyStats.Min h) = false /\
  ltb MaxFloat64 (HourlyStats.Min h) = false /\
  is_nan (HourlyStats.Max h) = false /\
  ltb (HourlyStats.Max h) (opp MaxFloat64) = false /\
  (HourlyStats.Samples h = 0 ->
   HourlyStats.Min h = zero /\ HourlyStats.Max h = zero /\
   HourlyStats.Mean h = zero /\ HourlyStats.StdDev h = zero).
Proof.
  intros Hlen Hds Hslot.
  destruct (AggregateToHourly_wf Format data ds Hlen Hds j h Hslot)
    as (Hpos & Hmin%below_max_not_nan & Hmax%above_min_not_nan).
  destruct Hmin, Hmax. repeat (split; [done|]).
  rewrite (AggregateToHourly_hour Format data ds j Hds) in Hslot.
  destruct (decide (j < 24)%nat); [|done]. injection Hslot as <-.
  rewrite Finalize_Samples, accumulate_Samples by by apply samples_of_slice.
  intros Hnil. unfold GoInt.len in Hnil.
  destruct (samples_of j data); [|done]. by cbn.
Qed.

(** X3: finalizing a bucket a second time changes nothing. *)
Theorem Finalize_idempotent (h : HourlyStats.t) :
  Finalize (Finalize h) = Finalize h.
Proof.
  unfold Finalize. destruct (HourlyStats.Samples h =? 0) eqn:Hz;
    cbn [HourlyStats.Samples HourlyStats.Hour HourlyStats.Min HourlyStats.Max
         HourlyStats.Sum HourlyStats.Mean HourlyStats.StdDev HourlyStats.Values];
    by rewrite Hz.
Qed.

(** ** The sign of the standard deviation *)

Lemma binary_round_aux_sign mx ex lx :
  ltb (binary_round_aux prec emax false mx ex lx) zero = false.
Proof.
  unfold binary_round_aux.
  destruct (shr_fexp prec emax mx ex lx) as [mrs' e'].
  destruct (shr_fexp prec emax _ e' loc_Exact) as [mrs'' e''].
  destruct (shr_m mrs'') as [|m|m]; [done| |done].
  by destruct (e'' <=? emax - prec).
Qed.

Lemma sqrt_sign x : ltb (sqrt x) zero = false.
Proof.
  destruct x as [[]|[]| |[] m e]; try done.
  unfold sqrt, SFsqrt.
  destruct (SFsqrt_core_binary prec emax (Z.pos m) e) as [[mz ez] lz].
  apply binary_round_aux_sign.
Qed.

(** X4: [CalculateStdDev] never returns a number below 0, whatever the
    values and the mean are; so no bucket the hourly aggregator returns
    and no hour the multi-day aggregator returns has a deviation below
    0. *)
Theorem CalculateStdDev_not_negative :
  (forall values mean, ltb (CalculateStdDev values mean) zero = false) /\
  (forall (GoTime : Type) (Format : GoTime -> string) data ds j h,
     AggregateToHourly Format data = Some ds ->
     slot (DailyStats.Hours ds) j = Some h ->
     ltb (HourlyStats.StdDev h) zero = false) /\
  (forall days r j agg,
     AggregateDays days = Some r ->
     slot (MultiDayStats.ByHour r) j = Some agg ->
     ltb (AggregatedHourStats.StdDev agg) zero = false).
Proof.
  assert (forall values mean, ltb (CalculateStdDev values mean) zero = false)
    as Hdev.
  { intros values mean. unfold CalculateStdDev.
    destruct (_ <? 2); [done|]. apply sqrt_sign. }
  split; [exact Hdev|]. split.
  - intros GoTime Format data ds j h Hds Hslot.
    rewrite (AggregateToHourly_hour Format data ds j Hds) in Hslot.
    destruct (decide (j < 24)%nat); [|done]. injection Hslot as <-.
    unfold Finalize. destruct (_ =? 0); cbn [HourlyStats.StdDev]; [|apply Hdev].
    induction (samples_of j data) as [|v vs IH] using rev_ind; [done|].
    rewrite accumulate_snoc. exact IH.
  - intros days r j agg Hr Hslot.
    rewrite (AggregateDays_slot _ _ j Hr) in Hslot.
    destruct (decide (j < 24)%nat); [|done]. injection Hslot as <-.
    unfold finish. destruct (_ =? 0);
      cbn [clear_extremes summarize AggregatedHourStats.StdDev]; [|apply Hdev].
    destruct (gather_defaults j (contributions j days)) as (_ & _ & _ & ->).
    done.
Qed.

(** ** The head of a multi-day result *)

Lemma AggregateDays_dates first days r :
  AggregateDays (first :: days) = Some r ->
  MultiDayStats.StartDate r = DailyStats.Date first /\
  MultiDayStats.EndDate r = DailyStats.Date (List.last (first :: days) first).
Proof.
  rewrite AggregateDays_cons. intros H. apply (inj Some) in H. subst r.
  by split.
Qed.

Lemma finish_Hour agg :
  AggregatedHourStats.Hour (finish agg) = AggregatedHourStats.Hour agg.
Proof. unfold finish. by destruct (_ =? 0). Qed.

Lemma contributions_length hour days :
  (length (contributions hour days) <= length days)%nat.
Proof.
  unfold contributions. induction days as [|day days IH]; [done|].
  rewrite omap_step. destruct (contribution hour day); cbn [length]; lia.
Qed.

(** X5: for a non-empty list of days the result carries the date of the
    first day as start, the date of the last day as end and the number
    of days; each of the 24 hours is there with its index, a number of
    contributing days between 0 and the number of days, and as many
    values as contributing days. *)
Theorem AggregateDays_head_and_counts
    (first : DailyStats.t) (days : list DailyStats.t) :
  GoInt.is_slice (first :: days) ->
  exists r, AggregateDays (first :: days) = Some r /\
    MultiDayStats.StartDate r = DailyStats.Date first /\
    MultiDayStats.EndDate r = DailyStats.Date (List.last days first) /\
    MultiDayStats.DaysAnalyzed r = GoInt.len (first :: days) /\
    forall hour, (hour < 24)%nat ->
      exists agg, slot (MultiDayStats.ByHour r) hour = Some agg /\
        AggregatedHourStats.Hour agg = Z.of_nat hour /\
        0 <= AggregatedHourStats.SampleDays agg <= MultiDayStats.DaysAnalyzed r /\
        AggregatedHourStats.SampleDays agg
        = GoInt.len (AggregatedHourStats.Values agg).
Proof.
  intros Hlen. destruct (AggregateDays_Some first days) as [r Hr].
  exists r. split; [exact Hr|].
  destruct (AggregateDays_dates _ _ _ Hr) as [-> ->].
  destruct (AggregateDays_totals _ _ Hr) as (-> & _).
  split; [done|]. split.
  { f_equal. destruct days as [|d days]; [done|]. by cbn. }
  split; [done|]. intros hour Hhour.
  eexists. rewrite (AggregateDays_slot _ _ hour Hr), decide_True by done.
  split; [reflexivity|].
  destruct (finish_Values (gather hour (contributions hour (first :: days))))
    as [-> ->].
  rewrite finish_Hour, gather_Values.
  destruct (gather_defaults hour (contributions hour (first :: days)))
    as (-> & _).
  rewrite gather_SampleDays by by apply contributions_slice.
  pose proof (contributions_length hour (first :: days)).
  unfold GoInt.len. rewrite length_fmap. repeat split; lia.
Qed.

(** X6: for a non-empty list of days the peak hour is an hour of the
    day, 0 to 23, and the peak average is never NaN and never below 0:
    it is 0 or above 0. *)
Theorem peak_within_range (first : DailyStats.t) (days : list DailyStats.t) :
  exists r, AggregateDays (first :: days) = Some r /\
    0 <= MultiDayStats.PeakHour r < 24 /\
    is_nan (MultiDayStats.PeakPowerAvg r) = false /\
    ltb (MultiDayStats.PeakPowerAvg r) zero = false /\
    (MultiDayStats.PeakPowerAvg r = zero \/
     gtb (MultiDayStats.PeakPowerAvg r) zero = true).
Proof.
  destruct (AggregateDays_Some first days) as [r Hr].
  exists r. split; [exact Hr|].
  pose proof (AggregateDays_peak _ _ Hr) as Hscan.
  pose proof (peak_scan_nonneg (average_at r) 24) as Hpos.
  rewrite <- Hscan in Hpos. cbn [snd] in Hpos.
  split.
  - destruct (peak_scan_first (average_at r) 24)
      as [Hnone|(p & Hp & Hsome & _)].
    + rewrite Hnone in Hscan. injection Hscan as -> _. lia.
    + rewrite Hsome in Hscan. injection Hscan as -> _. lia.
  - destruct Hpos as [-> | Hpos]; [by repeat split; try left|].
    split; [by destruct (MultiDayStats.PeakPowerAvg r) as [[]|[]| |[] m e]|].
    split; [by apply ltb_asym | by right].
Qed.

(** ** Days without samples *)

Lemma AggregateDays_nonempty days :
  days <> [] -> exists r, AggregateDays days = Some r.
Proof. destruct days; [done|]. intros _. apply AggregateDays_Some. Qed.

Lemma aggregate_days_length days arr :
  length (aggregate_days days arr) = length arr.
Proof.
  unfold aggregate_days. revert arr.
  induction days as [|d days IH]; intros arr; [done|].
  rewrite fold_left_step, IH. unfold aggregate_day.
  apply for_hours_length. intros i a.
  destruct (slot _ i); [|done]. destruct (_ =? 0); [done|].
  apply length_alter.
Qed.

Lemma AggregateDays_lookup days r j :
  AggregateDays days = Some r ->
  MultiDayStats.ByHour r !! j
  = if decide (j < 24)%nat
    then Some (Some (finish (gather j (contributions j days))))
    else None.
Proof.
  destruct days as [|first days]; [done|].
  rewrite AggregateDays_cons. intros H. apply (inj Some) in H. subst r.
  cbn [MultiDayStats.ByHour]. unfold final_state.
  rewrite final_hours_lookup. cbn [byHour].
  destruct (decide (j < 24)%nat) as [Hj|Hj].
  - by rewrite gathered_lookup.
  - apply lookup_ge_None_2.
    rewrite aggregate_days_length. unfold init_by_hour.
    rewrite for_hours_length by (intros; apply length_insert).
    rewrite length_replicate. lia.
Qed.

Lemma contributions_skip j l1 day l2 :
  contribution j day = None ->
  contributions j (l1 ++ day :: l2) = contributions j (l1 ++ l2).
Proof.
  intros Hnone. unfold contributions.
  by rewrite !omap_app, omap_step, Hnone.
Qed.

(** X7: a day none of whose buckets has a sample, wherever it stands in
    a list with other days, changes none of the 24 hourly aggregates
    and neither the peak hour nor the peak average; it only counts as
    one more day analyzed. *)
Theorem day_without_samples_is_skipped
    (l1 : list DailyStats.t) (day : DailyStats.t) (l2 : list DailyStats.t) :
  l1 ++ l2 <> [] ->
  (forall j h, slot (DailyStats.Hours day) j = Some h ->
               HourlyStats.Samples h = 0) ->
  exists r r',
    AggregateDays (l1 ++ day :: l2) = Some r /\
    AggregateDays (l1 ++ l2) = Some r' /\
    MultiDayStats.ByHour r = MultiDayStats.ByHour r' /\
    MultiDayStats.PeakHour r = MultiDayStats.PeakHour r' /\
    MultiDayStats.PeakPowerAvg r = MultiDayStats.PeakPowerAvg r' /\
    MultiDayStats.DaysAnalyzed r = MultiDayStats.DaysAnalyzed r' + 1.
Proof.
  intros Hne Hidle.
  destruct (AggregateDays_nonempty (l1 ++ day :: l2)) as [r Hr];
    [by destruct l1|].
  destruct (AggregateDays_nonempty (l1 ++ l2) Hne) as [r' Hr'].
  exists r, r'. split; [exact Hr|]. split; [exact Hr'|].
  assert (MultiDayStats.ByHour r = MultiDayStats.ByHour r') as Hsame.
  { apply list_eq. intros j.
    rewrite (AggregateDays_lookup _ _ j Hr), (AggregateDays_lookup _ _ j Hr').
    destruct (decide (j < 24)%nat); [|done].
    rewrite contributions_skip; [done|]. unfold contribution.
    destruct (slot _ j) as [h|] eqn:Hslot; [|done].
    by rewrite (Hidle j h Hslot). }
  split; [exact Hsame|].
  pose proof (AggregateDays_peak _ _ Hr) as Hpeak.
  pose proof (AggregateDays_peak _ _ Hr') as Hpeak'.
  assert (average_at r = average_at r') as Havg
    by (unfold average_at; by rewrite Hsame).
  rewrite Havg, <- Hpeak' in Hpeak. injection Hpeak as -> ->.
  split; [done|]. split; [done|].
  destruct (AggregateDays_totals _ _ Hr) as (-> & _).
  destruct (AggregateDays_totals _ _ Hr') as (-> & _).
  unfold GoInt.len. rewrite !length_app. cbn [length]. lia.
Qed.

(** ** A single day *)

Lemma CalculateMedian_single v : CalculateMedian [v] = v.
Proof. reflexivity. Qed.

Lemma contributions_single j day h :
  slot (DailyStats.Hours day) j = Some h ->
  contributions j [day] = if HourlyStats.Samples h =? 0 then [] else [h].
Proof.
  intros Hslot. unfold contributions. rewrite omap_step.
  unfold contribution. rewrite Hslot. by destruct (_ =? 0).
Qed.

Lemma finish_gather_single j h :
  ltb (HourlyStats.Min h) MaxFloat64 = true \/ HourlyStats.Min h = MaxFloat64 ->
  gtb (HourlyStats.Max h) (opp MaxFloat64) = true \/
  HourlyStats.Max h = opp MaxFloat64 ->
  let agg := finish (gather j [h]) in
  AggregatedHourStats.SampleDays agg = 1 /\
  AggregatedHourStats.Min agg = HourlyStats.Min h /\
  AggregatedHourStats.Max agg = HourlyStats.Max h /\
  AggregatedHourStats.Median agg = HourlyStats.Mean h /\
  AggregatedHourStats.StdDev agg = zero.
Proof.
  intros Hmin Hmax. cbv zeta. unfold gather. rewrite fold_left_single.
  unfold finish.
  cbn [fold_hour NewAggregatedHourStats AggregatedHourStats.SampleDays
       AggregatedHourStats.Min AggregatedHourStats.Max
       AggregatedHourStats.Values app].
  change (GoInt.add 0 1 =? 0) with false.
  cbn [summarize AggregatedHourStats.SampleDays AggregatedHourStats.Min
       AggregatedHourStats.Max AggregatedHourStats.Median
       AggregatedHourStats.StdDev AggregatedHourStats.Values].
  unfold fold_hour, NewAggregatedHourStats.
  cbn [AggregatedHourStats.SampleDays AggregatedHourStats.Min
       AggregatedHourStats.Max AggregatedHourStats.Values app].
  split; [done|]. split.
  { destruct Hmin as [Hlt|Heq]; [by rewrite Hlt|].
    by rewrite Heq, ltb_irrefl. }
  split.
  { unfold gtb in *. destruct Hmax as [Hlt|Heq]; [by rewrite Hlt|].
    by rewrite Heq, ltb_irrefl. }
  split; [apply CalculateMedian_single|]. by apply CalculateStdDev_short.
Qed.

(** X8: the multi-day aggregate of one day that the hourly aggregator
    returned: an hour with samples has 1 contributing day, the day's
    minimum and maximum, the day's mean as median and a deviation of 0;
    an hour without samples has no contributing day and minimum,
    maximum, average and median 0. *)
Theorem single_day_aggregate {GoTime : Type} (Format : GoTime -> string)
    (data : list (ParsedPowerData.t GoTime)) (ds : DailyStats.t) (j : nat) :
  GoInt.is_slice data ->
  AggregateToHourly Format data = Some ds ->
  (j < 24)%nat ->
  exists r agg h,
    AggregateDays [ds] = Some r /\
    slot (DailyStats.Hours ds) j = Some h /\
    slot (MultiDayStats.ByHour r) j = Some agg /\
    (samples_of j data <> [] ->
     AggregatedHourStats.SampleDays agg = 1 /\
     AggregatedHourStats.Min agg = HourlyStats.Min h /\
     AggregatedHourStats.Max agg = HourlyStats.Max h /\
     AggregatedHourStats.Median agg = HourlyStats.Mean h /\
     AggregatedHourStats.StdDev agg = zero) /\
    (samples_of j data = [] ->
     AggregatedHourStats.SampleDays agg = 0 /\
     AggregatedHourStats.Min agg = zero /\
     AggregatedHourStats.Max agg = zero /\
     AggregatedHourStats.Average agg = zero /\
     AggregatedHourStats.Median agg = zero).
Proof.
  intros Hlen Hds Hj.
  destruct (AggregateDays_Some ds []) as [r Hr].
  pose proof (AggregateToHourly_hour Format data ds j Hds) as Hslot.
  rewrite decide_True in Hslot by done.
  pose proof (AggregateToHourly_wf Format data ds Hlen Hds j _ Hslot)
    as (_ & Hmin & Hmax).
  eexists r, _, _. split; [exact Hr|]. split; [exact Hslot|].
  rewrite (AggregateDays_slot _ _ j Hr), decide_True by done.
  split; [reflexivity|].
  rewrite (contributions_single j ds _ Hslot), Finalize_Samples.
  rewrite accumulate_Samples by by apply samples_of_slice.
  split.
  - intros Hne.
    assert ((GoInt.len (samples_of j data) =? 0) = false) as ->.
    { apply Z.eqb_neq. unfold GoInt.len. destruct (samples_of j data); [done|].
      cbn [length]. lia. }
    by apply finish_gather_single.
  - intros ->. by cbn.
Qed.

(** ** Rows of aggregated days *)

Lemma bind_empty {A B} (f : A -> list B) : [] ≫= f = [].
Proof. reflexivity. Qed.

(** X9: the rows of two lists of days put together are the rows of the
    first followed by the rows of the second; the rows of a day the
    hourly aggregator returned are 24, for the hours 0 to 23 in this
    order, each with the day's date and the number of samples of its
    hour. *)
Theorem hourly_rows_in_day_and_hour_order :
  (forall l1 l2,
     GetHourlyRows (l1 ++ l2) = GetHourlyRows l1 ++ GetHourlyRows l2) /\
  (forall (GoTime : Type) (Format : GoTime -> string) data ds,
     GoInt.is_slice data ->
     AggregateToHourly Format data = Some ds ->
     HourlyRow.Hour <$> GetHourlyRows [ds] = Z.of_nat <$> seq 0 24 /\
     HourlyRow.Date <$> GetHourlyRows [ds] = replicate 24 (DailyStats.Date ds) /\
     HourlyRow.Samples <$> GetHourlyRows [ds]
     = (fun j => GoInt.len (samples_of j data)) <$> seq 0 24).
Proof.
  split.
  - intros l1 l2. rewrite !GetHourlyRows_bind. apply bind_app.
  - intros GoTime Format data ds Hlen Hds.
    assert (GetHourlyRows [ds]
            = (fun j => hourly_row ds j
                          (Finalize (accumulate (Z.of_nat j) (samples_of j data))))
                <$> seq 0 24) as ->.
    { rewrite GetHourlyRows_bind, bind_cons, bind_empty, app_nil_r.
      unfold day_rows. apply omap_total. intros j Hj%elem_of_seq.
      rewrite (AggregateToHourly_hour Format data ds j Hds), decide_True by lia.
      done. }
    rewrite <- !list_fmap_compose. split; [|split].
    + by apply list_fmap_ext.
    + change (replicate 24 (DailyStats.Date ds))
        with ((fun _ : nat => DailyStats.Date ds) <$> seq 0 24).
      by apply list_fmap_ext.
    + apply list_fmap_ext. intros i j _.
      cbn [compose hourly_row HourlyRow.Samples].
      rewrite Finalize_Samples.
      by rewrite accumulate_Samples by by apply samples_of_slice.
Qed.

(** ** The median splits the values *)

Lemma sorted_around l1 x l2 :
  StronglySorted fle (l1 ++ x :: l2) ->
  Forall (fun v => fle v x) l1 /\ Forall (fle x) l2.
Proof.
  induction l1 as [|y l1 IH]; cbn [app]; intros Hs.
  - apply StronglySorted_inv in Hs as [_ Hx]. by split.
  - apply StronglySorted_inv in Hs as [Hs Hy].
    destruct (IH Hs) as [Hlow Hup]. split; [|done].
    constructor; [|done].
    apply Forall_app in Hy as [_ Hy]. by apply Forall_inv in Hy.
Qed.

Lemma half_odd k : ((2 * k + 1) / 2 = k)%nat.
Proof. symmetry. apply (Nat.div_unique _ 2 k 1); lia. Qed.

Lemma half_even k : ((2 * k) / 2 = k)%nat.
Proof. symmetry. apply (Nat.div_unique _ 2 k 0); lia. Qed.

(** X10: for an odd number of values the median is one of them, with as
    many of the other values not above it as not below it; for an even
    number it is the average of two of them which stand between equally
    many values not above the smaller and not below the larger.  The
    order is that of the sort, NaN lowest; of the library's sort of long
    slices only the contract is assumed. *)
Theorem median_splits_values (values : list float64) :
  sorts pdqsort ->
  GoInt.is_slice values ->
  (Nat.Odd (length values) ->
   exists lower upper,
     values ≡ₚ lower ++ CalculateMedian values :: upper /\
     length lower = length upper /\
     Forall (fun v => fle v (CalculateMedian values)) lower /\
     Forall (fle (CalculateMedian values)) upper) /\
  (Nat.Even (length values) -> values <> [] ->
   exists lower a b upper,
     values ≡ₚ lower ++ a :: b :: upper /\
     length lower = length upper /\
     Forall (fun v => fle v a) lower /\ fle a b /\ Forall (fle b) upper /\
     CalculateMedian values = div (add a b) (of_int 2)).
Proof.
  intros Hlong Hlen.
  pose proof (Float64s_perm values Hlong) as Hperm.
  pose proof (Float64s_sorted values Hlong) as Hsorted.
  pose proof (Float64s_length values Hlong) as Hn.
  split.
  - intros [k Hk].
    assert (values <> []) as Hne by (intros ->; cbn in Hk; lia).
    rewrite CalculateMedian_middle by done. unfold middle_of_sorted.
    rewrite Hn. cbv zeta.
    assert (Nat.even (length values) = false) as ->.
    { rewrite <- Nat.negb_odd, (proj2 (Nat.odd_spec _)); [done|by exists k]. }
    assert (length values / 2 = k)%nat as -> by (rewrite Hk; apply half_odd).
    destruct (lookup_lt_is_Some_2 (Float64s values) k) as [x Hx]; [lia|].
    rewrite (nth_lookup_Some _ _ _ _ Hx).
    exists (take k (Float64s values)), (drop (S k) (Float64s values)).
    rewrite <- (take_drop_middle _ _ _ Hx) in Hsorted.
    rewrite (take_drop_middle _ _ _ Hx). split; [done|].
    split; [rewrite length_take, length_drop; lia|].
    by apply sorted_around.
  - intros [k Hk] Hne.
    assert (k <> 0)%nat as Hk0.
    { intros ->. destruct values; [done|]. cbn in Hk. lia. }
    rewrite CalculateMedian_middle by done. unfold middle_of_sorted.
    rewrite Hn. cbv zeta.
    assert (Nat.even (length values) = true) as ->
      by (apply Nat.even_spec; by exists k).
    assert (length values / 2 = k)%nat as -> by (rewrite Hk; apply half_even).
    destruct (lookup_lt_is_Some_2 (Float64s values) (k - 1)) as [a Ha]; [lia|].
    destruct (lookup_lt_is_Some_2 (Float64s values) k) as [b Hb]; [lia|].
    rewrite (nth_lookup_Some _ _ _ _ Ha), (nth_lookup_Some _ _ _ _ Hb).
    exists (take (k - 1) (Float64s values)), a, b,
           (drop (S k) (Float64s values)).
    assert (Float64s values
            = take (k - 1) (Float64s values) ++ a :: b
                :: drop (S k) (Float64s values)) as Hsplit.
    { rewrite <- (take_drop_middle _ _ _ Ha) at 1. do 2 f_equal.
      replace (S (k - 1)) with k by lia.
      rewrite <- (take_drop_middle _ _ _ Hb) at 1.
      rewrite drop_app_length'; [done|]. rewrite length_take. lia. }
    rewrite Hsplit in Hsorted. rewrite <- Hsplit.
    split; [done|]. split; [rewrite length_take, length_drop; lia|].
    destruct (sorted_around _ _ _ Hsorted) as [Hlow Hup].
    apply Forall_cons in Hup as [Hab Hup'].
    split; [done|]. split; [done|]. split; [|done].
    change (take (k - 1) (Float64s values) ++ a :: b :: drop (S k) (Float64s values))
      with (take (k - 1) (Float64s values) ++ [a] ++ b :: drop (S k) (Float64s values))
      in Hsorted.
    rewrite app_assoc in Hsorted. by apply sorted_around in Hsorted as [_ ?].
Qed.

End FurtherStatistics.

(** ** Examples *)

Lemma AggregateToHourly_partitions_witness :
  exists h,
    slot (DailyStats.Hours test_day) 6 = Some h /\
    HourlyStats.Values h = of_int <$> [0; 100; 200; 300].
Proof.
  destruct (AggregateToHourly_partitions (fun d : string => d)
              ((fun hw => ParsedPowerData.Build "2025-02-03" EmptyString
                            (of_int (snd hw)) (fst hw) 0)
                 <$> [(6, 0); (6, 100); (6, 200); (6, 300); (7, 500); (7, 600);
                      (12, 4500); (12, 4600)])
              test_day) as (Hbuckets & _ & _).
  - unfold GoInt.is_slice. vm_compute. discriminate.
  - vm_compute. reflexivity.
  - destruct (Hbuckets 6%nat) as (h & Hslot & _ & Hvalues & _); [lia|].
    exists h. split; [exact Hslot|]. rewrite Hvalues. vm_compute. reflexivity.
Defined.

Lemma hourly_buckets_within_sentinels_witness :
  exists h,
    slot (DailyStats.Hours (day_of "2025-02-03" [(6, 100); (6, 200)])) 6
    = Some h /\
    is_nan (HourlyStats.Min h) = false.
Proof.
  destruct (slot (DailyStats.Hours (day_of "2025-02-03" [(6, 100); (6, 200)])) 6)
    as [h|] eqn:Hslot; [|vm_compute in Hslot; discriminate].
  exists h. split; [reflexivity|].
  apply (hourly_buckets_within_sentinels (fun d : string => d)
           ((fun hw => ParsedPowerData.Build "2025-02-03" EmptyString
                         (of_int (snd hw)) (fst hw) 0) <$> [(6, 100); (6, 200)])
           (day_of "2025-02-03" [(6, 100); (6, 200)]) 6 h).
  - unfold GoInt.is_slice. vm_compute. discriminate.
  - vm_compute. reflexivity.
  - exact Hslot.
Defined.

Lemma CalculateStdDev_not_negative_witness :
  ltb (CalculateStdDev (of_int <$> [2; 4; 4; 4; 5; 5; 7; 9]) (of_int 5)) zero
  = false /\
  exists h,
    slot (DailyStats.Hours test_day) 6 = Some h /\
    ltb (HourlyStats.StdDev h) zero = false.
Proof.
  destruct CalculateStdDev_not_negative as (Hfunction & Hbucket & _).
  split; [apply Hfunction|].
  destruct (slot (DailyStats.Hours test_day) 6) as [h|] eqn:Hslot;
    [|vm_compute in Hslot; discriminate].
  exists h. split; [reflexivity|].
  apply (Hbucket string (fun d : string => d)
           ((fun hw => ParsedPowerData.Build "2025-02-03" EmptyString
                         (of_int (snd hw)) (fst hw) 0)
              <$> [(6, 0); (6, 100); (6, 200); (6, 300); (7, 500); (7, 600);
                   (12, 4500); (12, 4600)])
           test_day 6%nat h); [vm_compute; reflexivity | exact Hslot].
Defined.

Lemma AggregateDays_head_and_counts_witness :
  exists r, AggregateDays single_days = Some r /\
    MultiDayStats.StartDate r = "2025-02-01" /\
    MultiDayStats.EndDate r = "2025-02-03".
Proof.
  destruct (AggregateDays_head_and_counts
              (day_of "2025-02-01" [(12, 4000)])
              [day_of "2025-02-02" [(12, 4500)];
               day_of "2025-02-03" [(12, 4200)]])
    as (r & Hr & Hstart & Hend & _).
  - unfold GoInt.is_slice. vm_compute. discriminate.
  - exists r. split; [exact Hr|]. rewrite Hstart, Hend.
    split; vm_compute; reflexivity.
Defined.

Lemma day_without_samples_is_skipped_witness :
  exists r r',
    AggregateDays (single_days ++ [idle_day]) = Some r /\
    AggregateDays single_days = Some r' /\
    MultiDayStats.PeakHour r = MultiDayStats.PeakHour r'.
Proof.
  destruct (day_without_samples_is_skipped single_days idle_day [])
    as (r & r' & Hr & Hr' & _ & Hpeak & _).
  - discriminate.
  - intros j h Hslot.
    assert ((j < 24)%nat) as Hj.
    { destruct (decide (j < 24)%nat) as [|Hge]; [done|].
      unfold slot, idle_day in Hslot. cbn [DailyStats.Hours] in Hslot.
      rewrite lookup_ge_None_2 in Hslot; [done|].
      rewrite length_fmap, length_seq. lia. }
    do 24 (destruct j as [|j]; [by injection Hslot as <-|]). lia.
  - exists r, r'. rewrite app_nil_r in Hr'. by repeat split.
Defined.

Lemma single_day_aggregate_witness :
  exists r agg,
    AggregateDays [test_day] = Some r /\
    slot (MultiDayStats.ByHour r) 6 = Some agg /\
    AggregatedHourStats.Min agg = zero /\
    AggregatedHourStats.Max agg = of_int 300.
Proof.
  destruct (single_day_aggregate (fun d : string => d)
              ((fun hw => ParsedPowerData.Build "2025-02-03" EmptyString
                            (of_int (snd hw)) (fst hw) 0)
                 <$> [(6, 0); (6, 100); (6, 200); (6, 300); (7, 500); (7, 600);
                      (12, 4500); (12, 4600)])
              test_day 6)
    as (r & agg & h & Hr & Hh & Hagg & Hsome & _).
  - unfold GoInt.is_slice. vm_compute. discriminate.
  - vm_compute. reflexivity.
  - lia.
  - exists r, agg. split; [exact Hr|]. split; [exact Hagg|].
    destruct Hsome as (_ & -> & -> & _); [vm_compute; discriminate|].
    vm_compute in Hh. injection Hh as <-. by split.
Defined.

Lemma hourly_rows_in_day_and_hour_order_witness :
  HourlyRow.Hour <$> GetHourlyRows [test_day] = Z.of_nat <$> seq 0 24.
Proof.
  destruct hourly_rows_in_day_and_hour_order as [_ Hrows].
  destruct (Hrows string (fun d => d)
              ((fun hw => ParsedPowerData.Build "2025-02-03" EmptyString
                            (of_int (snd hw)) (fst hw) 0)
                 <$> [(6, 0); (6, 100); (6, 200); (6, 300); (7, 500); (7, 600);
                      (12, 4500); (12, 4600)])
              test_day) as (Hhour & _).
  - unfold GoInt.is_slice. vm_compute. discriminate.
  - vm_compute. reflexivity.
  - exact Hhour.
Defined.

Lemma median_splits_values_witness :
  exists lower upper,
    of_int <$> [5; 2; 8; 1; 9] ≡ₚ lower ++ of_int 5 :: upper /\
    length lower = length upper.
Proof.
  destruct (median_splits_values (of_int <$> [5; 2; 8; 1; 9])) as [Hodd _].
  - exact insertionSort_sorts.
  - unfold GoInt.is_slice. vm_compute. discriminate.
  - destruct Hodd as (lower & upper & Hperm & Hlen & _).
    + exists 2%nat. reflexivity.
    + exists lower, upper. split; [exact Hperm | exact Hlen].
Defined.

(** * From raw readings to days: [pkg/growatt] and [cmd/growatt-export] *)

(** ** The library functions *)

Lemma Contains_append s t sep :
  GoString.Contains (String.append s t) sep
  = GoString.Contains s sep || GoString.Contains t sep.
Proof.
  induction s as [|a s IH]; [done|].
  change (String.append (String a s) t) with (String a (String.append s t)).
  cbn [GoString.Contains]. rewrite IH. by rewrite orb_assoc.
Qed.

Lemma Split_without s sep :
  GoString.Contains s sep = false -> GoString.Split s sep = [s].
Proof.
  induction s as [|a s IH]; [done|]. cbn [GoString.Contains GoString.Split].
  intros [Ha Hs]%orb_false_iff. rewrite Ha, (IH Hs). done.
Qed.

Lemma Split_at_first s t sep :
  GoString.Contains s sep = false ->
  GoString.Split (String.append s (String sep t)) sep = s :: GoString.Split t sep.
Proof.
  induction s as [|a s IH].
  - intros _. change (String.append EmptyString (String sep t)) with (String sep t).
    cbn [GoString.Split]. by rewrite (proj2 (Ascii.eqb_eq sep sep) eq_refl).
  - change (String.append (String a s) (String sep t))
      with (String a (String.append s (String sep t))).
    cbn [GoString.Contains GoString.Split].
    intros [Ha Hs]%orb_false_iff. rewrite Ha, (IH Hs). done.
Qed.

Lemma Split_pieces_without s sep c :
  GoString.Contains s c = false ->
  Forall (fun piece => GoString.Contains piece c = false) (GoString.Split s sep).
Proof.
  induction s as [|a s IH]; [by repeat constructor|].
  cbn [GoString.Contains GoString.Split].
  intros [Ha Hs]%orb_false_iff. specialize (IH Hs).
  destruct (Ascii.eqb a sep).
  - by constructor.
  - destruct (GoString.Split s sep) as [|piece pieces].
    + repeat constructor. cbn [GoString.Contains]. by rewrite Ha.
    + apply Forall_cons in IH as [Hpiece Hpieces]. constructor; [|done].
      cbn [GoString.Contains]. by rewrite Ha, Hpiece.
Qed.

Lemma two_digits_Atoi n :
  0 <= n < 100 ->
  GoString.Atoi (two_digits n) = Some n /\
  GoString.Contains (two_digits n) GoString.colon = false /\
  GoString.Contains (two_digits n) GoString.space = false.
Proof.
  intros Hn.
  assert (forallb
            (fun k =>
               let n := Z.of_nat k in
               match GoString.Atoi (two_digits n) with
               | Some v => v =? n
               | None => false
               end
               && negb (GoString.Contains (two_digits n) GoString.colon)
               && negb (GoString.Contains (two_digits n) GoString.space))
            (seq 0 100) = true) as Hall by (vm_compute; reflexivity).
  rewrite forallb_forall in Hall.
  assert (In (Z.to_nat n) (seq 0 100)) as Hin by (apply in_seq; lia).
  apply Hall in Hin. cbv beta zeta in Hin. rewrite Z2Nat.id in Hin by lia.
  apply andb_true_iff in Hin as [Hin Hspace].
  apply andb_true_iff in Hin as [Hatoi Hcolon].
  apply negb_true_iff in Hcolon, Hspace.
  destruct (GoString.Atoi (two_digits n)) as [v|]; [|done].
  by apply Z.eqb_eq in Hatoi as ->.
Qed.

Lemma clock_Split hour minute :
  0 <= hour < 100 -> 0 <= minute < 100 ->
  GoString.Contains (clock hour minute) GoString.space = false /\
  GoString.Split (clock hour minute) GoString.colon
  = [two_digits hour; two_digits minute].
Proof.
  intros (_ & Hcolon & Hspace)%two_digits_Atoi
         (_ & Hcolon' & Hspace')%two_digits_Atoi.
  unfold clock. split.
  - rewrite Contains_append, Hspace. cbn [GoString.Contains orb].
    by rewrite Hspace'.
  - by rewrite Split_at_first, Split_without.
Qed.

(** ** One reading *)

Section ParseFacts.

Context {GoTime : Type} (ParseDate : string -> option GoTime)
        (Format : GoTime -> string).

Lemma parse_point_bare (date : GoTime) p :
  GoString.Contains (PowerDataPoint.Time p) GoString.space = false ->
  parse_point date p
  = parse_time date (PowerDataPoint.Time p) (PowerDataPoint.Power p).
Proof. unfold parse_point. by intros ->. Qed.

Lemma parse_point_dated (date : GoTime) p day timeStr :
  GoString.Contains (PowerDataPoint.Time p) GoString.space = true ->
  GoString.Split (PowerDataPoint.Time p) GoString.space = [day; timeStr] ->
  parse_point date p = parse_time date timeStr (PowerDataPoint.Power p).
Proof. unfold parse_point. by intros -> ->. Qed.

Lemma parse_point_undated (date : GoTime) p :
  length (GoString.Split (PowerDataPoint.Time p) GoString.space) <> 2%nat ->
  parse_point date p
  = parse_time date (PowerDataPoint.Time p) (PowerDataPoint.Power p).
Proof.
  intros Hparts. unfold parse_point. destruct (GoString.Contains _ _); [|done].
  assert ((GoInt.len (GoString.Split (PowerDataPoint.Time p) GoString.space)
           =? 2) = false) as ->; [|done].
  apply Z.eqb_neq. unfold GoInt.len. lia.
Qed.

Lemma parse_time_fields (date : GoTime) timeStr power hs ms rest hour minute :
  GoString.Split timeStr GoString.colon = hs :: ms :: rest ->
  GoString.Atoi hs = Some hour ->
  GoString.Atoi ms = Some minute ->
  parse_time date timeStr power
  = Some (ParsedPowerData.Build date timeStr power hour minute).
Proof.
  unfold parse_time. intros -> Hh Hm.
  assert ((GoInt.len (hs :: ms :: rest) <? 2) = false) as ->
    by (apply Z.ltb_ge; unfold GoInt.len; cbn [length]; lia).
  change ((hs :: ms :: rest) !!! 0%nat) with hs.
  change ((hs :: ms :: rest) !!! 1%nat) with ms.
  by rewrite Hh, Hm.
Qed.

Lemma parse_time_Some (date : GoTime) timeStr power sample :
  parse_time date timeStr power = Some sample ->
  ParsedPowerData.Date sample = date /\
  ParsedPowerData.Time sample = timeStr /\
  ParsedPowerData.Power sample = power /\
  exists hs ms rest,
    GoString.Split timeStr GoString.colon = hs :: ms :: rest /\
    GoString.Atoi hs = Some (ParsedPowerData.Hour sample) /\
    GoString.Atoi ms = Some (ParsedPowerData.Minute sample).
Proof.
  unfold parse_time.
  destruct (GoString.Split timeStr GoString.colon) as [|hs [|ms rest]];
    [done|done|].
  destruct (_ <? 2); [done|].
  change ((hs :: ms :: rest) !!! 0%nat) with hs.
  change ((hs :: ms :: rest) !!! 1%nat) with ms.
  destruct (GoString.Atoi hs) as [hour|] eqn:Hh; [|done].
  destruct (GoString.Atoi ms) as [minute|] eqn:Hm; [|done].
  intros [= <-]. cbn. repeat split. by exists hs, ms, rest.
Qed.

Lemma parse_time_without_colon (date : GoTime) timeStr power :
  GoString.Contains timeStr GoString.colon = false ->
  parse_time date timeStr power = None.
Proof. unfold parse_time. by intros ->%Split_without. Qed.

Lemma parse_point_Some (date : GoTime) p sample :
  parse_point date p = Some sample ->
  ParsedPowerData.Date sample = date /\
  ParsedPowerData.Power sample = PowerDataPoint.Power p /\
  (ParsedPowerData.Time sample = PowerDataPoint.Time p \/
   exists day,
     GoString.Split (PowerDataPoint.Time p) GoString.space
     = [day; ParsedPowerData.Time sample]) /\
  exists hs ms rest,
    GoString.Split (ParsedPowerData.Time sample) GoString.colon
    = hs :: ms :: rest /\
    GoString.Atoi hs = Some (ParsedPowerData.Hour sample) /\
    GoString.Atoi ms = Some (ParsedPowerData.Minute sample).
Proof.
  destruct (GoString.Contains (PowerDataPoint.Time p) GoString.space) eqn:Hsp.
  - destruct (GoString.Split (PowerDataPoint.Time p) GoString.space)
      as [|day [|timeStr [|more rest]]] eqn:Hparts.
    3: { rewrite (parse_point_dated date p day timeStr Hsp Hparts).
         intros (Hd & Ht & Hp & Hfields)%parse_time_Some.
         rewrite Ht. split; [done|]. split; [done|]. split; [|done].
         right. by exists day. }
    all: rewrite parse_point_undated by (rewrite Hparts; cbn [length]; lia);
      intros (Hd & Ht & Hp & Hfields)%parse_time_Some;
      rewrite Ht; split; [done|]; split; [done|]; split; [by left|done].
  - rewrite parse_point_bare by done.
    intros (Hd & Ht & Hp & Hfields)%parse_time_Some.
    rewrite Ht. split; [done|]. split; [done|]. split; [by left|done].
Qed.

(** ** A day of readings *)

Lemma fold_append_omap {A B} (f : A -> option B) (l : list A) (acc : list B) :
  fold_left (fun result p =>
               match f p with
               | None => result
               | Some sample => result ++ [sample]
               end) l acc
  = acc ++ omap f l.
Proof.
  revert acc. induction l as [|p l IH]; intros acc.
  - by rewrite app_nil_r.
  - rewrite fold_left_step, IH, omap_step. destruct (f p); [|done].
    by rewrite <- app_assoc.
Qed.

Lemma ParsePowerData_omap data date :
  ParseDate (PowerData.Date data) = Some date ->
  ParsePowerData ParseDate data
  = Some (omap (parse_point date) (PowerData.Powers data)).
Proof.
  unfold ParsePowerData. intros ->. by rewrite fold_append_omap.
Qed.

Lemma omap_length_le {A B} (f : A -> option B) (l : list A) :
  (length (omap f l) <= length l)%nat.
Proof.
  induction l as [|x l IH]; [done|]. rewrite omap_step.
  destruct (f x); cbn [length]; lia.
Qed.

Lemma omap_Forall {A B} (f : A -> option B) (P : B -> Prop) (l : list A) :
  (forall x y, x ∈ l -> f x = Some y -> P y) -> Forall P (omap f l).
Proof.
  induction l as [|x l IH]; intros Hall; [constructor|]. rewrite omap_step.
  assert (Forall P (omap f l)) by (apply IH; intros; eapply Hall; [by right|done]).
  destruct (f x) as [y|] eqn:Hy; [|done]. constructor; [|done].
  eapply Hall; [by left|done].
Qed.

Lemma omap_sublist {A B C} (f : A -> option B) (g : B -> C) (h : A -> C)
    (l : list A) :
  (forall x y, f x = Some y -> g y = h x) ->
  sublist (g <$> omap f l) (h <$> l).
Proof.
  intros Hgh. induction l as [|x l IH]; [constructor|]. rewrite omap_step.
  destruct (f x) as [y|] eqn:Hy.
  - rewrite !fmap_cons, (Hgh x y Hy). by constructor.
  - rewrite fmap_cons. by constructor.
Qed.

(** X11: [ParsePowerData] fails exactly when the date of the day does
    not parse.  Otherwise it returns a sample for every reading the loop
    body accepts and for no other, in input order and with the powers
    untouched, no more than it was given; every sample carries the
    parsed date, a time of day that is the reading's own or the second
    of its two parts around a space, and the hour and minute that
    [strconv.Atoi] reads from the first two parts of that time around
    its colons. *)
Theorem ParsePowerData_keeps_readable data :
  match ParseDate (PowerData.Date data) with
  | None => ParsePowerData ParseDate data = None
  | Some date =>
      exists result,
        ParsePowerData ParseDate data = Some result /\
        (length result <= length (PowerData.Powers data))%nat /\
        sublist (ParsedPowerData.Power <$> result)
                (PowerDataPoint.Power <$> PowerData.Powers data) /\
        (forall p sample,
           p ∈ PowerData.Powers data -> parse_point date p = Some sample ->
           sample ∈ result) /\
        Forall (fun sample =>
                  ParsedPowerData.Date sample = date /\
                  (exists p, p ∈ PowerData.Powers data /\
                     ParsedPowerData.Power sample = PowerDataPoint.Power p /\
                     (ParsedPowerData.Time sample = PowerDataPoint.Time p \/
                      exists day,
                        GoString.Split (PowerDataPoint.Time p) GoString.space
                        = [day; ParsedPowerData.Time sample])) /\
                  exists hs ms rest,
                    GoString.Split (ParsedPowerData.Time sample) GoString.colon
                    = hs :: ms :: rest /\
                    GoString.Atoi hs = Some (ParsedPowerData.Hour sample) /\
                    GoString.Atoi ms = Some (ParsedPowerData.Minute sample))
               result
  end.
Proof.
  destruct (ParseDate (PowerData.Date data)) as [date|] eqn:Hdate.
  - exists (omap (parse_point date) (PowerData.Powers data)).
    split; [by apply ParsePowerData_omap|].
    split; [apply omap_length_le|]. split; [|split].
    + apply omap_sublist. by intros p sample (_ & ? & _)%parse_point_Some.
    + intros p sample Hin Hsample. apply list_elem_of_omap. by exists p.
    + apply omap_Forall.
      intros p sample Hin (Hd & Hp & Ht & Hfields)%parse_point_Some.
      split; [done|]. split; [|done]. by exists p.
  - unfold ParsePowerData. by rewrite Hdate.
Qed.

Lemma parse_time_clock (date : GoTime) hour minute power :
  0 <= hour < 100 -> 0 <= minute < 100 ->
  GoString.Contains (clock hour minute) GoString.space = false /\
  parse_time date (clock hour minute) power
  = Some (ParsedPowerData.Build date (clock hour minute) power hour minute).
Proof.
  intros Hh Hm.
  destruct (clock_Split hour minute Hh Hm) as [Hspace Hparts].
  destruct (two_digits_Atoi hour Hh) as (Hhour & _).
  destruct (two_digits_Atoi minute Hm) as (Hminute & _).
  split; [done|]. by eapply parse_time_fields.
Qed.

(** X12: a reading whose time of day is written as two digits, a colon
    and two digits keeps its hour and its minute, alone or after a date
    and a space; a reading whose time has no colon is dropped. *)
Theorem parse_point_clock (date : GoTime) hour minute power day :
  0 <= hour < 100 -> 0 <= minute < 100 ->
  GoString.Contains day GoString.space = false ->
  parse_point date (PowerDataPoint.Build (clock hour minute) power)
  = Some (ParsedPowerData.Build date (clock hour minute) power hour minute) /\
  parse_point date
    (PowerDataPoint.Build
       (String.append day (String GoString.space (clock hour minute))) power)
  = Some (ParsedPowerData.Build date (clock hour minute) power hour minute) /\
  forall timeStr,
    GoString.Contains timeStr GoString.colon = false ->
    parse_point date (PowerDataPoint.Build timeStr power) = None.
Proof.
  intros Hh Hm Hday.
  destruct (parse_time_clock date hour minute power Hh Hm) as [Hspace Htime].
  split; [|split].
  - by rewrite parse_point_bare.
  - rewrite (parse_point_dated date _ day (clock hour minute)); [done| |].
    + cbn [PowerDataPoint.Time]. rewrite Contains_append.
      cbn [GoString.Contains].
      rewrite (proj2 (Ascii.eqb_eq GoString.space GoString.space) eq_refl).
      by rewrite orb_true_r.
    + cbn [PowerDataPoint.Time]. by rewrite Split_at_first, Split_without.
  - intros timeStr Hcolon.
    destruct (GoString.Contains timeStr GoString.space) eqn:Hsp.
    + pose proof (Split_pieces_without timeStr GoString.space GoString.colon
                    Hcolon) as Hpieces.
      destruct (GoString.Split timeStr GoString.space)
        as [|d [|t [|more rest]]] eqn:Hsplit.
      3: { rewrite (parse_point_dated date _ d t) by done.
           apply parse_time_without_colon.
           apply Forall_cons in Hpieces as [_ Hpieces].
           by apply Forall_cons in Hpieces as [? _]. }
      all: rewrite parse_point_undated
          by (cbn [PowerDataPoint.Time]; rewrite Hsplit; cbn [length]; lia);
        by apply parse_time_without_colon.
    + rewrite parse_point_bare by done. by apply parse_time_without_colon.
Qed.

End ParseFacts.

Lemma parse_point_clock_witness :
  parse_point "2025-02-03" (PowerDataPoint.Build (clock 6 5) (of_int 100))
  = Some (ParsedPowerData.Build "2025-02-03" (clock 6 5) (of_int 100) 6 5).
Proof.
  apply (parse_point_clock "2025-02-03" 6 5 (of_int 100) "2025-02-03");
    [lia | lia | reflexivity].
Defined.

(** ** The days [run] collects *)

Section Pipeline.

Context {library : Library}.

Lemma write_stats_step_not_nil statsFile dailyStats :
  write_stats_step statsFile dailyStats <> StatsNil.
Proof.
  unfold write_stats_step. destruct dailyStats as [|first days].
  - replace (1 <? GoInt.len (@nil DailyStats.t)) with false by reflexivity.
    done.
  - destruct (AggregateDays_Some first days) as [r ->].
    by destruct (_ && _).
Qed.

Lemma bind_length_full {A B} (f : A -> list B) n (l : list A) :
  Forall (fun x => length (f x) = n) l ->
  length (l ≫= f) = (n * length l)%nat.
Proof.
  induction 1 as [|x l Hx _ IH]; [cbn; lia|].
  rewrite bind_cons, length_app, Hx, IH. cbn [length]. lia.
Qed.

Section PipelineFacts.

Context {GoTime : Type} (ParseDate : string -> option GoTime)
        (Format : GoTime -> string).

Lemma collect_daily_stats_snoc powerData pd :
  collect_daily_stats ParseDate Format (powerData ++ [pd])
  = match collect_daily_stats ParseDate Format powerData with
    | None => None
    | Some dailyStats =>
        match ParsePowerData ParseDate pd with
        | None => None
        | Some parsed =>
            match AggregateToHourly Format parsed with
            | None => Some dailyStats
            | Some ds => Some (dailyStats ++ [ds])
            end
        end
    end.
Proof.
  unfold collect_daily_stats. rewrite fold_left_app. apply fold_left_single.
Qed.

Lemma ParsePowerData_Some data parsed :
  ParsePowerData ParseDate data = Some parsed ->
  exists date,
    ParseDate (PowerData.Date data) = Some date /\
    parsed = omap (parse_point date) (PowerData.Powers data).
Proof.
  destruct (ParseDate (PowerData.Date data)) as [date|] eqn:Hdate.
  - rewrite (ParsePowerData_omap ParseDate data date Hdate).
    intros [= <-]. by exists date.
  - unfold ParsePowerData. by rewrite Hdate.
Qed.

(** The day the hourly aggregator makes of the samples of a parsed
    day. *)
Lemma parsed_day data parsed ds :
  GoInt.is_slice (PowerData.Powers data) ->
  ParsePowerData ParseDate data = Some parsed ->
  AggregateToHourly Format parsed = Some ds ->
  Format <$> ParseDate (PowerData.Date data) = Some (DailyStats.Date ds) /\
  wf_day ds /\
  forall hour, (hour < 24)%nat -> is_Some (slot (DailyStats.Hours ds) hour).
Proof.
  intros Hlen (date & Hdate & ->)%ParsePowerData_Some Hds.
  split; [|split].
  - rewrite Hdate. cbn [fmap option_fmap option_map]. f_equal.
    destruct (omap _ _) as [|first rest] eqn:Hparsed; [done|].
    destruct (AggregateToHourly_cons Format first rest)
      as (ds' & Hds' & Hd & _).
    rewrite Hds in Hds'. injection Hds' as <-. rewrite Hd. f_equal.
    assert (Forall (fun sample => ParsedPowerData.Date sample = date)
                   (first :: rest)) as Hall.
    { rewrite <- Hparsed. apply omap_Forall.
      by intros p sample _ (? & _)%parse_point_Some. }
    by apply Forall_cons in Hall as [? _].
  - eapply AggregateToHourly_wf; [|exact Hds].
    unfold GoInt.is_slice, GoInt.len in *.
    pose proof (omap_length_le (parse_point date) (PowerData.Powers data)).
    lia.
  - intros hour Hhour.
    rewrite (AggregateToHourly_hour Format _ ds hour Hds), decide_True by done.
    by eexists.
Qed.

(** X13: the loop of [run] that parses and aggregates the days fails
    exactly when the date of one of them does not parse.  Otherwise the
    days it collects come in the order of the input with the parsed date
    of their input, each holds its 24 well-formed buckets, so that the
    hourly rows are 24 for every collected day, and the statistics step
    never hands a [nil] result to its writer. *)
Theorem collect_daily_stats_full_days powerData :
  Forall (fun pd => GoInt.is_slice (PowerData.Powers pd)) powerData ->
  match collect_daily_stats ParseDate Format powerData with
  | None => Exists (fun pd => ParseDate (PowerData.Date pd) = None) powerData
  | Some dailyStats =>
      Forall (fun pd => is_Some (ParseDate (PowerData.Date pd))) powerData /\
      sublist (DailyStats.Date <$> dailyStats)
              (omap (fun pd => Format <$> ParseDate (PowerData.Date pd))
                    powerData) /\
      Forall (fun ds =>
                wf_day ds /\
                forall hour, (hour < 24)%nat ->
                  is_Some (slot (DailyStats.Hours ds) hour))
             dailyStats /\
      length (GetHourlyRows dailyStats) = (24 * length dailyStats)%nat /\
      forall statsFile, write_stats_step statsFile dailyStats <> StatsNil
  end.
Proof.
  induction powerData as [|pd powerData IH] using rev_ind; intros Hlen.
  - change (collect_daily_stats ParseDate Format []) with (Some (@nil DailyStats.t)).
    split; [constructor|]. split; [constructor|]. split; [constructor|].
    split; [by rewrite GetHourlyRows_bind|].
    intros statsFile. apply write_stats_step_not_nil.
  - apply Forall_app in Hlen as [Hlen Hpd]. apply Forall_cons in Hpd as [Hpd _].
    specialize (IH Hlen). rewrite collect_daily_stats_snoc.
    destruct (collect_daily_stats ParseDate Format powerData) as [dailyStats|];
      [|apply Exists_app; by left].
    destruct IH as (Hdates & Hsub & Hfull & Hrows & _).
    destruct (ParsePowerData ParseDate pd) as [parsed|] eqn:Hparsed.
    + destruct (ParsePowerData_Some pd parsed Hparsed) as (date & Hdate & _).
      assert (Forall (fun pd => is_Some (ParseDate (PowerData.Date pd)))
                     (powerData ++ [pd])) as Hdates'.
      { apply Forall_app. split; [done|]. repeat constructor. by exists date. }
      rewrite omap_app.
      destruct (AggregateToHourly Format parsed) as [ds|] eqn:Hds.
      * destruct (parsed_day pd parsed ds Hpd Hparsed Hds) as (Hd & Hwf & Hall).
        split; [done|]. split; [|split; [|split]].
        -- rewrite fmap_app. apply sublist_app; [done|].
           rewrite omap_step, Hd. done.
        -- apply Forall_app. split; [done|].
           constructor; [by split | constructor].
        -- rewrite GetHourlyRows_bind in *.
           rewrite bind_app, !length_app, Hrows, bind_cons, bind_empty,
             app_nil_r, (day_rows_full ds Hall).
           cbn [length]. lia.
        -- intros statsFile. apply write_stats_step_not_nil.
      * split; [done|]. split; [by apply sublist_inserts_r|].
        split; [done|]. split; [done|].
        intros statsFile. apply write_stats_step_not_nil.
    + apply Exists_app. right. constructor.
      unfold ParsePowerData in Hparsed.
      by destruct (ParseDate (PowerData.Date pd)).
Qed.

(** ** Readings on the clock *)

Lemma omap_parse_readings (date : GoTime) (rs : list (Z * Z * float64)) :
  Forall (fun r => 0 <= r.1.1 < 24 /\ 0 <= r.1.2 < 60) rs ->
  omap (parse_point date) (reading <$> rs)
  = (fun r => ParsedPowerData.Build date (clock r.1.1 r.1.2) r.2 r.1.1 r.1.2)
      <$> rs.
Proof.
  induction 1 as [|r rs [Hh Hm] _ IH]; [done|].
  rewrite !fmap_cons, omap_step, IH.
  destruct (parse_time_clock date r.1.1 r.1.2 r.2) as [Hspace Htime];
    [lia|lia|].
  rewrite parse_point_bare by done.
  change (parse_time date (PowerDataPoint.Time (reading r))
                     (PowerDataPoint.Power (reading r)))
    with (parse_time date (clock r.1.1 r.1.2) r.2).
  by rewrite Htime.
Qed.

Lemma samples_of_readings (date : GoTime) j (rs : list (Z * Z * float64)) :
  Forall (fun r => 0 <= r.1.1 < 24 /\ 0 <= r.1.2 < 60) rs ->
  samples_of j
    ((fun r => ParsedPowerData.Build date (clock r.1.1 r.1.2) r.2 r.1.1 r.1.2)
       <$> rs)
  = snd <$> filter (fun r => r.1.1 = Z.of_nat j) rs.
Proof.
  unfold samples_of. induction 1 as [|r rs [Hh Hm] _ IH]; [done|].
  rewrite fmap_cons, !filter_cons.
  cbn [ParsedPowerData.Hour in_day].
  destruct (decide (r.1.1 = Z.of_nat j)) as [Hj|Hj].
  - rewrite decide_True.
    + rewrite !fmap_cons, IH. done.
    + unfold in_day. cbn [ParsedPowerData.Hour]. split; [|lia].
      apply andb_true_iff. split; [apply Z.leb_le | apply Z.ltb_lt]; lia.
  - rewrite decide_False by (intros [_ ?]; lia). exact IH.
Qed.

(** X14: the readings of a day that are written on the clock, with an
    hour from 0 to 23, all pass the parser, and the day the hourly
    aggregator makes of them carries the parsed date and holds in the
    bucket of every hour the powers of the readings of that hour, in
    input order, and their number. *)
Theorem readings_reach_their_hour plant day date
    (rs : list (Z * Z * float64)) :
  ParseDate day = Some date ->
  rs <> [] ->
  GoInt.is_slice rs ->
  Forall (fun r => 0 <= r.1.1 < 24 /\ 0 <= r.1.2 < 60) rs ->
  exists parsed ds,
    ParsePowerData ParseDate (PowerData.Build plant day (reading <$> rs))
    = Some parsed /\
    length parsed = length rs /\
    AggregateToHourly Format parsed = Some ds /\
    DailyStats.Date ds = Format date /\
    forall j, (j < 24)%nat ->
      exists h,
        slot (DailyStats.Hours ds) j = Some h /\
        HourlyStats.Values h = snd <$> filter (fun r => r.1.1 = Z.of_nat j) rs /\
        HourlyStats.Samples h = GoInt.len (HourlyStats.Values h).
Proof.
  intros Hdate Hne Hlen Hrs.
  pose (to_sample := fun r : Z * Z * float64 =>
          ParsedPowerData.Build date (clock r.1.1 r.1.2) r.2 r.1.1 r.1.2).
  exists (to_sample <$> rs).
  destruct rs as [|r rs]; [done|].
  destruct (AggregateToHourly_cons Format (to_sample r) (to_sample <$> rs))
    as (ds & Hds & Hd & Hslot).
  exists ds. split; [|split; [|split; [|split]]].
  - rewrite (ParsePowerData_omap ParseDate _ date) by done.
    cbn [PowerData.Powers]. f_equal. by apply omap_parse_readings.
  - by rewrite length_fmap.
  - exact Hds.
  - exact Hd.
  - intros j Hj. eexists. rewrite Hslot, decide_True by done.
    split; [reflexivity|].
    destruct (Finalize_keeps
                (accumulate (Z.of_nat j)
                   (samples_of j (to_sample r :: (to_sample <$> rs)))))
      as (_ & _ & ->).
    rewrite Finalize_Samples, accumulate_Values, accumulate_Samples.
    + split; [|done]. by apply (samples_of_readings date j (r :: rs)).
    + apply samples_of_slice. unfold GoInt.is_slice, GoInt.len in *.
      cbn [length] in *. rewrite length_fmap. lia.
Qed.

End PipelineFacts.

End Pipeline.

(** ** Examples *)

Lemma collect_daily_stats_full_days_witness :
  exists dailyStats,
    collect_daily_stats (fun day => Some day) (fun date => date)
      [PowerData.Build "1" "2025-02-03" [reading (6, 5, of_int 100)]]
    = Some dailyStats /\
    length (GetHourlyRows dailyStats) = (24 * length dailyStats)%nat.
Proof.
  pose proof (collect_daily_stats_full_days
                (fun day : string => Some day) (fun date : string => date)
                [PowerData.Build "1" "2025-02-03" [reading (6, 5, of_int 100)]])
    as Hdays.
  destruct (collect_daily_stats _ _ _) as [dailyStats|] eqn:Hcollect.
  - exists dailyStats. split; [reflexivity|].
    destruct Hdays as (_ & _ & _ & Hrows & _); [|exact Hrows].
    repeat constructor. unfold GoInt.is_slice. vm_compute. discriminate.
  - vm_compute in Hcollect. discriminate.
Defined.

Lemma readings_reach_their_hour_witness :
  exists parsed ds h,
    ParsePowerData (fun day => Some day)
      (PowerData.Build "1" "2025-02-03"
         (reading <$> [(6, 0, of_int 0); (6, 5, of_int 100); (7, 0, of_int 500)]))
    = Some parsed /\
    AggregateToHourly (fun date => date) parsed = Some ds /\
    slot (DailyStats.Hours ds) 6 = Some h /\
    HourlyStats.Values h = [of_int 0; of_int 100].
Proof.
  destruct (readings_reach_their_hour
              (fun day : string => Some day) (fun date : string => date)
              "1" "2025-02-03" "2025-02-03"
              [(6, 0, of_int 0); (6, 5, of_int 100); (7, 0, of_int 500)])
    as (parsed & ds & Hparsed & _ & Hds & _ & Hhours).
  - reflexivity.
  - discriminate.
  - unfold GoInt.is_slice. vm_compute. discriminate.
  - repeat constructor; cbn; lia.
  - destruct (Hhours 6%nat) as (h & Hslot & Hvalues & _); [lia|].
    exists parsed, ds, h. split; [exact Hparsed|]. split; [exact Hds|].
    split; [exact Hslot|]. rewrite Hvalues. vm_compute. reflexivity.
Defined.

